(** * System health monitor: alert decision engine, classifier and state store

    A shallow embedding of the health monitor of
    [src/01_Folder/project.py] (Level 1) and [src/01_Folder/04_project.py]
    (Level 3): the per-endpoint failure counter, the idempotent alert decision
    [should_alert], the UP/SLOW/DOWN classification and alert dispatch of
    [run], and [load_state]/[save_state].

    The monitor keeps its state in a Python [dict] that comes straight out of
    [json.load], so a stored record is dynamically typed.  The embedding keeps
    that: records are JSON values, every subscript and arithmetic step may
    raise, and the functions live in an error monad. *)

From stdpp Require Import gmap strings list fin_maps.
From Stdlib Require Import ZArith QArith Lia Ascii.

Open Scope Z_scope.

(** ** Python values and exceptions *)

(** Exceptions the modelled code can raise. *)
Inductive exn :=
  | KeyError (k : string)
  | TypeError
  | JSONDecodeError
  | UnicodeDecodeError.

Inductive result (A : Type) :=
  | Ok (a : A)
  | Raise (e : exn).
Arguments Ok {A} a.
Arguments Raise {A} e.

#[global] Instance result_ret : MRet result := λ A a, Ok a.
#[global] Instance result_bind : MBind result := λ A B f m,
  match m with
  | Ok a => f a
  | Raise e => Raise e
  end.

(** The values [json.load] produces, without fractional numbers (the monitor
    of Level 3 stores integers and booleans only). *)
#[warnings="-register-all"]
Inductive pyval :=
  | PNone
  | PBool (b : bool)
  | PInt (z : Z)
  | PStr (s : string)
  | PList (l : list pyval)
  | PDict (d : gmap string pyval).

(** [bool(v)]: Python truthiness, as used by [not v]. *)
Definition truthy (v : pyval) : bool :=
  match v with
  | PNone => false
  | PBool b => b
  | PInt z => negb (z =? 0)
  | PStr s => negb (String.eqb s "")
  | PList l => negb (Nat.eqb (length l) 0)
  | PDict d => negb (Nat.eqb (size d) 0)
  end.

(** [v[k]] for a string subscript [k]. *)
Definition getitem (v : pyval) (k : string) : result pyval :=
  match v with
  | PDict d =>
      match d !! k with
      | Some x => Ok x
      | None => Raise (KeyError k)
      end
  | _ => Raise TypeError
  end.

(** [v[k] = x] for a string subscript [k]; the dict is updated in place, the
    function returns the updated object. *)
Definition setitem (v : pyval) (k : string) (x : pyval) : result pyval :=
  match v with
  | PDict d => Ok (PDict (<[k := x]> d))
  | _ => Raise TypeError
  end.

(** [v + n], [v >= n] and [v > n] for an [int] [n]; [bool] is a subclass of
    [int] in Python. *)
Definition py_add (v : pyval) (n : Z) : result pyval :=
  match v with
  | PInt z => Ok (PInt (z + n))
  | PBool b => Ok (PInt (Z.b2z b + n))
  | _ => Raise TypeError
  end.

Definition py_ge (v : pyval) (n : Z) : result bool :=
  match v with
  | PInt z => Ok (n <=? z)
  | PBool b => Ok (n <=? Z.b2z b)
  | _ => Raise TypeError
  end.

Definition py_gt (v : pyval) (n : Z) : result bool :=
  match v with
  | PInt z => Ok (n <? z)
  | PBool b => Ok (n <? Z.b2z b)
  | _ => Raise TypeError
  end.

(** [self.state]: the mapping from endpoint key to stored record. *)
Abbreviation State := (gmap string pyval).

(** [d.setdefault(key, dflt)]: the stored value, or [dflt] after inserting
    it. *)
Definition setdefault (st : State) (key : string) (dflt : pyval) : pyval * State :=
  match st !! key with
  | Some v => (v, st)
  | None => (dflt, <[key := dflt]> st)
  end.

(** ** Floats, as far as [run] compares them

    [response_time] and [MAX_RESPONSE_TIME] are Python floats.  The code only
    compares them; a finite binary64 value is a rational and Python compares
    finite floats by value, so a finite float is represented by its value in
    [Q].  [float(os.environ[...])] also accepts [inf] and [nan]. *)
Inductive pyfloat :=
  | FNaN
  | FNegInf
  | FFin (q : Q)
  | FPosInf.

(** [a > b] on floats: false as soon as one side is NaN. *)
Definition float_gt (a b : pyfloat) : bool :=
  match a, b with
  | FNaN, _ | _, FNaN => false
  | FNegInf, _ => false
  | _, FPosInf => false
  | FFin x, FFin y => negb (Qle_bool x y)
  | FFin _, FNegInf => true
  | FPosInf, _ => true
  end.

(** [a <= b] on floats. *)
Definition float_le (a b : pyfloat) : bool :=
  match a, b with
  | FNaN, _ | _, FNaN => false
  | FNegInf, _ => true
  | _, FPosInf => true
  | FFin x, FFin y => Qle_bool x y
  | FFin _, FNegInf => false
  | FPosInf, _ => false
  end.

(** ** The state file

    [json.load] and [json.dump] are library code.  The state file is
    represented by what [json.load] makes of its content; [json.dump] writes
    a text that [json.load] reads back as the mapping dumped. *)
Inductive file_data :=
  | JsonObject (m : State)  (** a JSON object, decoding to the mapping [m] *)
  | NotJson                 (** text that is not JSON *)
  | NotText.                (** bytes that are not text in the file's encoding *)

(** [STATE_FILE] on disk: [None] when the path does not exist. *)
Abbreviation backing := (option file_data).

(** [json.load(f)] on an open file. *)
Definition json_load (d : file_data) : result State :=
  match d with
  | JsonObject m => Ok m
  | NotJson => Raise JSONDecodeError
  | NotText => Raise UnicodeDecodeError
  end.

(** [json.dump(obj, f, indent=2)] into a file opened with ["w"]. *)
Definition json_dump (m : State) : file_data := JsonObject m.

(** ** Level 3: [04_project.py] *)

(** The three values [should_alert] returns: [True], [False] and the string
    ["RECOVERED"]. *)
Inductive Decision := DTrue | DFalse | DRecovered.

#[global] Instance Decision_eq_dec : EqDecision Decision.
Proof. solve_decision. Defined.

Inductive HealthStatus := UP | SLOW | DOWN.

#[global] Instance HealthStatus_eq_dec : EqDecision HealthStatus.
Proof. solve_decision. Defined.

(** The [status] argument of [SlackAlertHandler.send_alert]. *)
Inductive AlertKind := AlertDown | AlertSlow | AlertRecovered.

#[global] Instance AlertKind_eq_dec : EqDecision AlertKind.
Proof. solve_decision. Defined.

(** An entry of [servers.json] with its three fields present. *)
Record Server := mkServer {
  name : string;
  url : string;
  method : string;
}.

(** The state key of [run]: [f"{server['method']}:{server['url']}"]. *)
Definition endpoint_key (server : Server) : string :=
  (method server +:+ ":" +:+ url server)%string.

Module Level3.
(** [HealthMonitor.load_state] of [04_project.py]: only
    [json.JSONDecodeError] is caught. *)
Definition load_state (file : backing) : result State :=
  match file with
  | Some d =>
      match json_load d with
      | Ok m => Ok m
      | Raise JSONDecodeError => Ok ∅
      | Raise e => Raise e
      end
  | None => Ok ∅
  end.

(** [HealthMonitor.save_state]: the file as it is afterwards. *)
Definition save_state (st : State) : backing := Some (json_dump st).

Section Config.
(** Module-level configuration, read from the environment. *)
Variable ALERT_THRESHOLD : Z.
Variable MAX_RESPONSE_TIME : pyfloat.

(** The default of [should_alert]'s [setdefault]. *)
Definition fresh_record : pyval :=
  PDict {[ "failures" := PInt 0; "alerted" := PBool false ]}.

(** The body of [should_alert] after the [setdefault], on the record dict
    [state]; the result carries the dict as the body leaves it. *)
Definition should_alert_record (is_down : bool) (state : pyval)
  : result (Decision * pyval) :=
  if is_down then
    f ← getitem state "failures";
    f ← py_add f 1;
    state ← setitem state "failures" f;
    c ← py_ge f ALERT_THRESHOLD;
    if (c : bool) then
      a ← getitem state "alerted";
      if negb (truthy a) then
        state ← setitem state "alerted" (PBool true);
        Ok (DTrue, state)
      else Ok (DFalse, state)
    else Ok (DFalse, state)
  else
    f ← getitem state "failures";
    c ← py_gt f 0;
    if (c : bool) then
      state ← setitem state "failures" (PInt 0);
      state ← setitem state "alerted" (PBool false);
      Ok (DRecovered, state)
    else Ok (DFalse, state).

(** [HealthMonitor.should_alert].  The local [state] aliases the dict
    stored under [key], so what the body does to it is what the store holds
    afterwards.  An exception leaves [run] before [save_state], so a raised
    result carries no state. *)
Definition should_alert (key : string) (is_down : bool) (st : State)
  : result (Decision * State) :=
  let '(state, st) := setdefault st key fresh_record in
  match should_alert_record is_down state with
  | Ok (d, state) => Ok (d, <[key := state]> st)
  | Raise e => Raise e
  end.

(** [should_alert] on consecutive checks of one endpoint, the state carried
    from one check to the next. *)
Fixpoint should_alert_seq (key : string) (checks : list bool) (st : State)
  : result (list Decision * State) :=
  match checks with
  | [] => Ok ([], st)
  | is_down :: rest =>
      match should_alert key is_down st with
      | Ok (d, st) =>
          match should_alert_seq key rest st with
          | Ok (ds, st) => Ok (d :: ds, st)
          | Raise e => Raise e
          end
      | Raise e => Raise e
      end
  end.

(** The classification in the loop of [run]. *)
Definition classify (is_up : bool) (response_time : pyfloat) : HealthStatus :=
  if negb is_up then DOWN
  else if float_gt response_time MAX_RESPONSE_TIME then SLOW
  else UP.

(** The [if alert is True / elif alert == "RECOVERED" / elif status ==
    "SLOW"] chain of [run]: the alerts handed to Slack for one check. *)
Definition dispatch (alert : Decision) (status : HealthStatus) : list AlertKind :=
  match alert with
  | DTrue => [AlertDown]
  | DRecovered => [AlertRecovered]
  | DFalse => if decide (status = SLOW) then [AlertSlow] else []
  end.

(** One iteration of the loop of [run]; [check_server]'s answer is an
    input.  The loop also stores [response_time] in the server entry, for the
    Slack message only. *)
Definition check (server : Server) (probe : bool * pyfloat) (st : State)
  : result (list (string * AlertKind) * State) :=
  let key := endpoint_key server in
  let '(is_up, response_time) := probe in
  let status := classify is_up response_time in
  match should_alert key (bool_decide (status = DOWN)) st with
  | Ok (alert, st) => Ok ((λ k, (name server, k)) <$> dispatch alert status, st)
  | Raise e => Raise e
  end.

(** The loop of [run] over the server list: the alerts sent, in order, and
    the state that [save_state] then writes. *)
Fixpoint run (work : list (Server * (bool * pyfloat))) (st : State)
  : result (list (string * AlertKind) * State) :=
  match work with
  | [] => Ok ([], st)
  | (server, probe) :: rest =>
      match check server probe st with
      | Ok (sent, st) =>
          match run rest st with
          | Ok (sent', st) => Ok (sent ++ sent', st)
          | Raise e => Raise e
          end
      | Raise e => Raise e
      end
  end.
End Config.
End Level3.

(** ** Level 1: [project.py] *)

Module Level1.
(** [HealthMonitor.load_state] of [project.py]: no handler. *)
Definition load_state (file : backing) : result State :=
  match file with
  | Some d => json_load d
  | None => Ok ∅
  end.

Definition save_state (st : State) : backing := Some (json_dump st).

Section Config.
(** [ALERT_THRESHOLD = 2] in [project.py]; a parameter here, so that the
    two levels can be run at a common threshold. *)
Variable ALERT_THRESHOLD : Z.

Definition fresh_record : pyval :=
  PDict {[ "consecutive_failures" := PInt 0;
           "last_alert_sent" := PNone;
           "last_status" := PStr "unknown" ]}.

(** The body of [should_alert] on the dict [self.state[url]]; [now] is the
    value of [datetime.now().isoformat()]. *)
Definition should_alert_record (is_down : bool) (now : string) (rec : pyval)
  : result (bool * pyval) :=
  if is_down then
    f ← getitem rec "consecutive_failures";
    f ← py_add f 1;
    rec ← setitem rec "consecutive_failures" f;
    failures ← getitem rec "consecutive_failures";
    c ← py_ge failures ALERT_THRESHOLD;
    if (c : bool) then
      a ← getitem rec "last_alert_sent";
      if negb (truthy a) then
        rec ← setitem rec "last_alert_sent" (PStr now);
        Ok (true, rec)
      else Ok (false, rec)
    else Ok (false, rec)
  else
    f ← getitem rec "consecutive_failures";
    _ ← py_gt f 0;
    rec ← setitem rec "consecutive_failures" (PInt 0);
    rec ← setitem rec "last_alert_sent" PNone;
    Ok (false, rec).

(** [HealthMonitor.should_alert] of [project.py]; [02_project.py] has the
    same function, up to the text it logs. *)
Definition should_alert (url : string) (is_down : bool) (now : string) (st : State)
  : result (bool * State) :=
  let st := if decide (is_Some (st !! url)) then st else <[url := fresh_record]> st in
  match st !! url with
  | Some rec =>
      match should_alert_record is_down now rec with
      | Ok (b, rec) => Ok (b, <[url := rec]> st)
      | Raise e => Raise e
      end
  | None => Raise (KeyError url)
  end.

(** Consecutive checks of one endpoint, each with the clock reading of its
    call. *)
Fixpoint should_alert_seq (url : string) (checks : list (bool * string)) (st : State)
  : result (list bool * State) :=
  match checks with
  | [] => Ok ([], st)
  | (is_down, now) :: rest =>
      match should_alert url is_down now st with
      | Ok (b, st) =>
          match should_alert_seq url rest st with
          | Ok (bs, st) => Ok (b :: bs, st)
          | Raise e => Raise e
          end
      | Raise e => Raise e
      end
  end.
End Config.
End Level1.

(** ** The endpoint record, typed

    The record a well-formed stored dict stands for, and the transition
    [should_alert] of Level 3 makes on it. *)
Module Machine.
Record EndpointRecord := mkRecord {
  consecutive_failures : Z;
  alerted : bool;
}.

Definition fresh : EndpointRecord := mkRecord 0 false.

Definition step (threshold : Z) (r : EndpointRecord) (is_down : bool)
  : Decision * EndpointRecord :=
  if is_down then
    let f := consecutive_failures r + 1 in
    if (threshold <=? f) && negb (alerted r)
    then (DTrue, mkRecord f true)
    else (DFalse, mkRecord f (alerted r))
  else
    if 0 <? consecutive_failures r
    then (DRecovered, mkRecord 0 false)
    else (DFalse, r).

Fixpoint steps (threshold : Z) (r : EndpointRecord) (checks : list bool)
  : list Decision * EndpointRecord :=
  match checks with
  | [] => ([], r)
  | is_down :: rest =>
      let '(d, r) := step threshold r is_down in
      let '(ds, r) := steps threshold r rest in
      (d :: ds, r)
  end.

(** What holds of every record reachable from a fresh one. *)
Definition reachable_inv (r : EndpointRecord) : Prop :=
  0 ≤ consecutive_failures r ∧ (alerted r = true → 0 < consecutive_failures r).

(** A stored value stands for a record: a dict whose ["failures"] is that
    integer and whose ["alerted"] has that truth value. *)
Definition represents (v : pyval) (r : EndpointRecord) : Prop :=
  ∃ (d : gmap string pyval) (a : pyval),
    v = PDict d ∧
    d !! "failures" = Some (PInt (consecutive_failures r)) ∧
    d !! "alerted" = Some a ∧
    truthy a = alerted r.

(** The record the store holds for [key]; an absent key counts as the
    record [setdefault] would create. *)
Definition record_of (st : State) (key : string) (r : EndpointRecord) : Prop :=
  match st !! key with
  | Some v => represents v r
  | None => r = fresh
  end.

(** The transition [should_alert] of Level 1 makes on the record: a check
    that is not down resets both fields unconditionally. *)
Definition step_L1 (threshold : Z) (r : EndpointRecord) (is_down : bool)
  : bool * EndpointRecord :=
  if is_down then
    let f := consecutive_failures r + 1 in
    if (threshold <=? f) && negb (alerted r)
    then (true, mkRecord f true)
    else (false, mkRecord f (alerted r))
  else (false, mkRecord 0 false).

(** The same for a dict of Level 1, where a truthy ["last_alert_sent"]
    plays the part of [alerted]. *)
Definition represents_L1 (v : pyval) (r : EndpointRecord) : Prop :=
  ∃ (d : gmap string pyval) (a : pyval),
    v = PDict d ∧
    d !! "consecutive_failures" = Some (PInt (consecutive_failures r)) ∧
    d !! "last_alert_sent" = Some a ∧
    truthy a = alerted r.

Definition record_of_L1 (st : State) (url : string) (r : EndpointRecord) : Prop :=
  match st !! url with
  | Some v => represents_L1 v r
  | None => r = fresh
  end.
End Machine.

(** How many decisions of a run are [x]. *)
Definition count_decision (x : Decision) (ds : list Decision) : nat :=
  length (filter (λ d, d = x) ds).

(** How many answers of Level 1 are [True]. *)
Definition count_true (bs : list bool) : nat :=
  length (filter (λ b, b = true) bs).

(** The positions of a run at which the decision is [True]. *)
Definition down_alert_positions (ds : list Decision) : list bool :=
  (λ d, bool_decide (d = DTrue)) <$> ds.

(** ** Sample endpoints and stored records *)

(** Two entries of the example [servers.json] that [load_servers] writes. *)
Definition slow_api : Server :=
  mkServer "Slow API" "https://httpbin.org/delay/3" "GET".

Definition failing_api : Server :=
  mkServer "Failing API" "https://httpbin.org/status/500" "GET".

(** A Level 3 record dict. *)
Definition record_dict (failures : Z) (alerted : bool) : pyval :=
  PDict {[ "failures" := PInt failures; "alerted" := PBool alerted ]}.

(** A record as Level 1 writes it to [state.json], the file name both levels
    use by default. *)
Definition level1_record_dict : pyval :=
  PDict {[ "consecutive_failures" := PInt 0;
           "last_alert_sent" := PNone;
           "last_status" := PStr "UP";
           "last_check" := PStr "2024-01-01T00:00:00.000000" ]}.

(** ** The whole process of Level 3 *)

Module Level3Main.
(** [monitor = HealthMonitor(); monitor.run()], with [SLACK_WEBHOOK_URL]
    set: the state is loaded, the loop runs over the servers, and the state is
    saved once at the end.  The server list and the probe answers are inputs.
    An exception leaves the process before [save_state]: the state file then
    stays as it was. *)
Definition main (ALERT_THRESHOLD : Z) (MAX_RESPONSE_TIME : pyfloat)
    (work : list (Server * (bool * pyfloat))) (file : backing)
  : result (list (string * AlertKind) * backing) :=
  match Level3.load_state file with
  | Ok st =>
      match Level3.run ALERT_THRESHOLD MAX_RESPONSE_TIME work st with
      | Ok (sent, st) => Ok (sent, Level3.save_state st)
      | Raise e => Raise e
      end
  | Raise e => Raise e
  end.
End Level3Main.

(** ** Reference notions: the failure streak *)

(** The number of consecutive DOWN checks an endpoint is in, updated by one
    check. *)
Definition streak_step (s : nat) (is_down : bool) : nat :=
  if is_down then S s else 0%nat.

(** The streak at the end of a sequence of checks: the length of its longest
    suffix of DOWN checks. *)
Definition down_streak (checks : list bool) : nat :=
  foldl streak_step 0%nat checks.

(** Whether a streak of [s] failures has been alerted on. *)
Definition alert_due (threshold : Z) (s : nat) : bool :=
  (threshold <=? Z.of_nat s) && (1 <=? Z.of_nat s).

(** The record a streak of [s] failures corresponds to. *)
Definition streak_record (threshold : Z) (s : nat) : Machine.EndpointRecord :=
  Machine.mkRecord (Z.of_nat s) (alert_due threshold s).

(** The answer to a check that finds the endpoint in a streak of [s]: the
    DOWN alert on the failure that brings the streak to the threshold (to 1
    for a threshold below 1), the recovery notice on the first check that is
    not DOWN after a failure. *)
Definition streak_decision (threshold : Z) (s : nat) (is_down : bool) : Decision :=
  if is_down then
    if bool_decide (Z.of_nat (S s) = Z.max threshold 1) then DTrue else DFalse
  else
    if bool_decide (0 < s)%nat then DRecovered else DFalse.

Fixpoint streak_decisions (threshold : Z) (s : nat) (checks : list bool)
  : list Decision :=
  match checks with
  | [] => []
  | is_down :: rest =>
      streak_decision threshold s is_down
      :: streak_decisions threshold (streak_step s is_down) rest
  end.

(** Every stored value is a well-formed Level 3 record. *)
Definition well_formed_store (st : State) : Prop :=
  ∀ (k : string) (v : pyval), st !! k = Some v → ∃ r, Machine.represents v r.

(** ** The loop of [run] in Level 1 *)

Module Level1Run.
(** One iteration of the loop of [run] of [project.py].  [check_server]'s
    answer [is_up] is an input, and so are the two clock readings: the one
    [should_alert] takes when it alerts, and the one stored as
    ["last_check"].  The result lists the URLs handed to [send_alert]. *)
Definition check (ALERT_THRESHOLD : Z) (url : string) (is_up : bool)
    (now_alert now_check : string) (st : State)
  : result (list string * State) :=
  let status := if is_up then "UP" else "DOWN" in
  match Level1.should_alert ALERT_THRESHOLD url (negb is_up) now_alert st with
  | Ok (alert, st) =>
      let sent := if alert then [url] else [] in
      match st !! url with
      | Some rec =>
          match setitem rec "last_status" (PStr status) with
          | Ok rec =>
              match setitem rec "last_check" (PStr now_check) with
              | Ok rec => Ok (sent, <[url := rec]> st)
              | Raise e => Raise e
              end
          | Raise e => Raise e
          end
      | None => Raise (KeyError url)
      end
  | Raise e => Raise e
  end.

(** The checks of one URL over consecutive runs. *)
Fixpoint check_seq (ALERT_THRESHOLD : Z) (url : string)
    (checks : list (bool * (string * string))) (st : State)
  : result (list (list string) * State) :=
  match checks with
  | [] => Ok ([], st)
  | (is_up, (now_alert, now_check)) :: rest =>
      match check ALERT_THRESHOLD url is_up now_alert now_check st with
      | Ok (sent, st) =>
          match check_seq ALERT_THRESHOLD url rest st with
          | Ok (sents, st) => Ok (sent :: sents, st)
          | Raise e => Raise e
          end
      | Raise e => Raise e
      end
  end.
End Level1Run.

(** The checks of one endpoint over consecutive runs of Level 3. *)
Fixpoint check_seq_level3 (ALERT_THRESHOLD : Z) (MAX_RESPONSE_TIME : pyfloat)
    (server : Server) (probes : list (bool * pyfloat)) (st : State)
  : result (list (list (string * AlertKind)) * State) :=
  match probes with
  | [] => Ok ([], st)
  | probe :: rest =>
      match Level3.check ALERT_THRESHOLD MAX_RESPONSE_TIME server probe st with
      | Ok (sent, st) =>
          match check_seq_level3 ALERT_THRESHOLD MAX_RESPONSE_TIME server rest st with
          | Ok (sents, st) => Ok (sent :: sents, st)
          | Raise e => Raise e
          end
      | Raise e => Raise e
      end
  end.

(** ** The server list of Level 1: a text file

    [load_servers] of [project.py] reads [servers.txt] line by line.  In this
    part a Python [str] is the list of its characters, a character standing
    for the code point of its number; text with code points above 255 is
    outside the model. *)

Module Level1Servers.
Definition LF : ascii := "010"%char.
Definition CR : ascii := "013"%char.

(** [c.isspace()], which is what [str.strip()] removes: the code points 9 to
    13, 28 to 31, 32, 133 and 160 (among those below 256). *)
Definition is_space (c : ascii) : bool :=
  let n := nat_of_ascii c in
  ((9 <=? n) && (n <=? 13) || (28 <=? n) && (n <=? 31)
   || (n =? 32) || (n =? 133) || (n =? 160))%nat.

Fixpoint lstrip (s : list ascii) : list ascii :=
  match s with
  | [] => []
  | c :: rest => if is_space c then lstrip rest else s
  end.

Definition rstrip (s : list ascii) : list ascii :=
  reverse (lstrip (reverse s)).

(** [s.strip()]. *)
Definition strip (s : list ascii) : list ascii := rstrip (lstrip s).

(** What reading in text mode does to line ends: ["\r\n"] and a lone ["\r"]
    become ["\n"]. *)
Fixpoint universal_newlines (s : list ascii) : list ascii :=
  match s with
  | [] => []
  | c :: rest =>
      if decide (c = CR) then
        LF :: match rest with
              | [] => []
              | c' :: rest' =>
                  if decide (c' = LF) then universal_newlines rest'
                  else universal_newlines rest
              end
      else c :: universal_newlines rest
  end.

(** [for line in f]: the lines of the text, each with its ["\n"], the last
    one without if the text does not end in one. *)
Fixpoint lines_from (cur : list ascii) (s : list ascii) : list (list ascii) :=
  match s with
  | [] => match cur with [] => [] | _ => [reverse cur] end
  | c :: rest =>
      if decide (c = LF) then reverse (c :: cur) :: lines_from [] rest
      else lines_from (c :: cur) rest
  end.

Definition file_lines (text : list ascii) : list (list ascii) :=
  lines_from [] (universal_newlines text).

(** [sep.join(l)]. *)
Fixpoint join (sep : list ascii) (l : list (list ascii)) : list ascii :=
  match l with
  | [] => []
  | x :: rest =>
      match rest with
      | [] => x
      | _ => x ++ sep ++ join sep rest
      end
  end.

Definition example_servers : list (list ascii) :=
  [ String.list_ascii_of_string "https://httpbin.org/status/200";
    String.list_ascii_of_string "https://httpbin.org/status/500";
    String.list_ascii_of_string "https://example.com" ].

(** [HealthMonitor.load_servers] of [project.py], on the content of
    [servers.txt] ([None] when the file does not exist): the list returned
    and the file as it is afterwards. *)
Definition load_servers (file : option (list ascii))
  : list (list ascii) * option (list ascii) :=
  match file with
  | None => (example_servers, Some (join [LF] example_servers))
  | Some text =>
      ((strip <$> filter (λ line, strip line ≠ []) (file_lines text)), file)
  end.

(** A string that [strip] leaves alone and that is not empty. *)
Definition trimmed (s : list ascii) : Prop := s ≠ [] ∧ strip s = s.

(** A string whose first and last characters are not whitespace. *)
Definition ends_clean (s : list ascii) : Prop :=
  (∃ c t, s = c :: t ∧ is_space c = false)
  ∧ (∃ t c, s = t ++ [c] ∧ is_space c = false).

(** What a line of a text file looks like: no ["\n"] but at its end. *)
Definition one_line (l : list ascii) : Prop :=
  ∃ body, (LF ∉ body) ∧ (l = body ++ [LF] ∨ l = body).
End Level1Servers.

(** ** Probing, and the entries of [servers.json] as dicts *)

(** What [requests.request] does: it returns a response with a status code,
    or raises. *)
Inductive http_outcome :=
  | Responded (status_code : Z)
  | RequestFailed.

Module Level3Entries.
(** [HealthMonitor.check_server] of [04_project.py].  [response_time] is the
    value of [round(time.time() - start, 2)] that the function computes in
    either branch, the measured time after rounding to two decimals: the
    clock and [round] are not modelled, so the rounded value is the input.
    Every exception counts as a failed check. *)
Definition check_server (outcome : http_outcome) (response_time : pyfloat)
  : bool * pyfloat :=
  match outcome with
  | Responded status_code => (status_code =? 200, response_time)
  | RequestFailed => (false, response_time)
  end.

(** One iteration of the loop of [run] on an entry as [json.load] returns
    it, for entries whose values are strings: the state key subscripts
    ["method"] and ["url"], the log line subscripts ["name"], and a missing
    key raises [KeyError] there. *)
Definition check_entry (ALERT_THRESHOLD : Z) (MAX_RESPONSE_TIME : pyfloat)
    (server : gmap string string) (outcome : http_outcome) (response_time : pyfloat)
    (st : State)
  : result (list (string * AlertKind) * State) :=
  match server !! "method" with
  | None => Raise (KeyError "method")
  | Some method =>
      match server !! "url" with
      | None => Raise (KeyError "url")
      | Some url =>
          let probe := check_server outcome response_time in
          match server !! "name" with
          | None => Raise (KeyError "name")
          | Some name =>
              Level3.check ALERT_THRESHOLD MAX_RESPONSE_TIME
                (mkServer name url method) probe st
          end
      end
  end.

Fixpoint run_entries (ALERT_THRESHOLD : Z) (MAX_RESPONSE_TIME : pyfloat)
    (work : list (gmap string string * (http_outcome * pyfloat))) (st : State)
  : result (list (string * AlertKind) * State) :=
  match work with
  | [] => Ok ([], st)
  | (server, (outcome, response_time)) :: rest =>
      match check_entry ALERT_THRESHOLD MAX_RESPONSE_TIME server outcome response_time st with
      | Ok (sent, st) =>
          match run_entries ALERT_THRESHOLD MAX_RESPONSE_TIME rest st with
          | Ok (sent', st) => Ok (sent ++ sent', st)
          | Raise e => Raise e
          end
      | Raise e => Raise e
      end
  end.

(** An entry with the three keys the loop subscripts. *)
Definition complete_entry (server : gmap string string) : Prop :=
  is_Some (server !! "method") ∧ is_Some (server !! "url")
  ∧ is_Some (server !! "name").
End Level3Entries.

(** * Properties *)

(** ** The scenario of the specification, and one run of [run] *)

(** Threshold 2, probes fail, fail, fail, succeed: the decisions are none,
    DOWN, none, RECOVERED, and the record ends at counter 0, not alerted. *)
Example scenario_three_failures_then_success :
  Level3.should_alert_seq 2 "GET:https://a/healthz" [true; true; true; false] ∅
  = Ok ([DFalse; DTrue; DFalse; DRecovered],
        {[ "GET:https://a/healthz" := record_dict 0 false ]}).
Proof. vm_compute. reflexivity. Qed.

(** Two runs over a slow and a failing endpoint, threshold 2 and a limit of
    2.0 s: the first sends the SLOW alert only, the second the SLOW alert
    again and the DOWN alert. *)
Example two_runs :
  Level3.run 2 (FFin 2)
    [(slow_api, (true, FFin 3)); (failing_api, (false, FFin (1 # 10)))] ∅
  = Ok ([("Slow API", AlertSlow)],
        {[ "GET:https://httpbin.org/delay/3" := record_dict 0 false;
           "GET:https://httpbin.org/status/500" := record_dict 1 false ]})
  ∧ Level3.run 2 (FFin 2)
      [(slow_api, (true, FFin 3)); (failing_api, (false, FFin (1 # 10)))]
      {[ "GET:https://httpbin.org/delay/3" := record_dict 0 false;
         "GET:https://httpbin.org/status/500" := record_dict 1 false ]}
    = Ok ([("Slow API", AlertSlow); ("Failing API", AlertDown)],
          {[ "GET:https://httpbin.org/delay/3" := record_dict 0 false;
             "GET:https://httpbin.org/status/500" := record_dict 2 true ]}).
Proof. split; vm_compute; reflexivity. Qed.

(** ** Level 3 acts on well-formed records as the typed transition *)

Section Refinement.
Import Machine.
Variable T : Z.

Lemma fresh_record_represents : represents Level3.fresh_record fresh.
Proof. exists {[ "failures" := PInt 0; "alerted" := PBool false ]}, (PBool false). done. Qed.

Lemma should_alert_record_step (is_down : bool) (v : pyval) (r : EndpointRecord) :
  represents v r →
  ∃ v', Level3.should_alert_record T is_down v = Ok ((step T r is_down).1, v')
        ∧ represents v' (step T r is_down).2.
Proof.
  intros (d & a & -> & Hf & Ha & Htr).
  destruct r as [f al]; simpl in *.
  unfold Level3.should_alert_record, step; simpl.
  destruct is_down; simpl; rewrite Hf; simpl.
  - rewrite lookup_insert_ne by done. rewrite Ha; simpl. rewrite Htr.
    destruct (T <=? f + 1); simpl.
    + destruct al; simpl.
      * eexists; split; [done|]. exists (<["failures" := PInt (f + 1)]> d), a.
        simpl. by rewrite lookup_insert_eq, lookup_insert_ne, Ha.
      * eexists; split; [done|].
        eexists _, (PBool true). split; [done|]. simpl.
        by rewrite lookup_insert_ne, !lookup_insert_eq.
    + eexists; split; [done|]. exists (<["failures" := PInt (f + 1)]> d), a.
      simpl. by rewrite lookup_insert_eq, lookup_insert_ne, Ha.
  - destruct (0 <? f); simpl.
    + eexists; split; [done|]. eexists _, (PBool false). split; [done|]. simpl.
      by rewrite lookup_insert_ne, !lookup_insert_eq.
    + eexists; split; [done|]. by exists d, a.
Qed.

Lemma should_alert_step (key : string) (is_down : bool) (st : State) (r : EndpointRecord) :
  record_of st key r →
  ∃ st', Level3.should_alert T key is_down st = Ok ((step T r is_down).1, st')
         ∧ record_of st' key (step T r is_down).2
         ∧ ∀ k, k ≠ key → st' !! k = st !! k.
Proof.
  unfold record_of, Level3.should_alert, setdefault. intros Hr.
  destruct (st !! key) as [v|] eqn:Hk.
  - destruct (should_alert_record_step is_down v r Hr) as (v' & -> & Hv').
    eexists; split; [done|]. rewrite lookup_insert_eq. split; [done|].
    intros k Hne. by rewrite lookup_insert_ne.
  - subst r.
    destruct (should_alert_record_step is_down _ _ fresh_record_represents)
      as (v' & -> & Hv').
    eexists; split; [done|]. rewrite lookup_insert_eq. split; [done|].
    intros k Hne. by rewrite !lookup_insert_ne.
Qed.

Lemma should_alert_seq_steps (key : string) (checks : list bool) :
  ∀ (st : State) (r : EndpointRecord),
    record_of st key r →
    ∃ st', Level3.should_alert_seq T key checks st = Ok ((steps T r checks).1, st')
           ∧ record_of st' key (steps T r checks).2
           ∧ ∀ k, k ≠ key → st' !! k = st !! k.
Proof.
  induction checks as [|b checks IH]; intros st r Hr; simpl.
  - by exists st.
  - destruct (should_alert_step key b st r Hr) as (st1 & -> & Hr1 & Hfr1).
    destruct (step T r b) as [d r1]; simpl in *.
    destruct (IH st1 r1 Hr1) as (st2 & -> & Hr2 & Hfr2).
    destruct (steps T r1 checks) as [ds r2]; simpl in *.
    exists st2. split; [done|]. split; [done|].
    intros k Hne. by rewrite Hfr2, Hfr1.
Qed.
End Refinement.

(** ** The typed transition system *)

Section MachineFacts.
Import Machine.
Variable T : Z.

Lemma fresh_inv : reachable_inv fresh.
Proof. split; [done | discriminate]. Qed.

Lemma step_inv (r : EndpointRecord) (b : bool) :
  reachable_inv r → reachable_inv (step T r b).2.
Proof.
  destruct r as [f a]. unfold reachable_inv, step; simpl. intros [Hf Ha].
  destruct b.
  - destruct ((T <=? f + 1) && negb a); simpl; split; intros; lia.
  - destruct (0 <? f) eqn:E; simpl; split; try lia; try discriminate. done.
Qed.

Lemma steps_inv (checks : list bool) :
  ∀ r, reachable_inv r → reachable_inv (steps T r checks).2.
Proof.
  induction checks as [|b checks IH]; intros r Hr; simpl; [done|].
  pose proof (step_inv r b Hr) as H1.
  destruct (step T r b) as [d r1]; simpl in *.
  specialize (IH r1 H1). by destruct (steps T r1 checks).
Qed.

Lemma steps_length (checks : list bool) :
  ∀ r, length (steps T r checks).1 = length checks.
Proof.
  induction checks as [|b checks IH]; intros r; simpl; [done|].
  destruct (step T r b) as [d r1]. specialize (IH r1).
  destruct (steps T r1 checks); simpl in *. by rewrite IH.
Qed.

Lemma steps_app (xs ys : list bool) :
  ∀ r, steps T r (xs ++ ys)
       = ((steps T r xs).1 ++ (steps T (steps T r xs).2 ys).1,
          (steps T (steps T r xs).2 ys).2).
Proof.
  induction xs as [|b xs IH]; intros r; simpl.
  - by destruct (steps T r ys).
  - destruct (step T r b) as [d r1]. rewrite IH.
    destruct (steps T r1 xs) as [ds r2]; simpl. done.
Qed.

(** Once alerted, further DOWN checks stay silent. *)
Lemma downs_alerted (k : nat) :
  ∀ f, (steps T (mkRecord f true) (replicate k true)).1 = replicate k DFalse
       ∧ (steps T (mkRecord f true) (replicate k true)).2 = mkRecord (f + Z.of_nat k) true.
Proof.
  induction k as [|k IH]; intros f; simpl.
  - split; [done|]. f_equal. lia.
  - unfold step; simpl. rewrite andb_false_r.
    destruct (IH (f + 1)) as [E1 E2].
    destruct (steps T (mkRecord (f + 1) true) (replicate k true)) as [ds r2].
    simpl in *. subst. split; [done|]. f_equal. lia.
Qed.

(** Below the threshold, DOWN checks only count. *)
Lemma downs_below (k : nat) :
  ∀ f, f + Z.of_nat k < T →
       steps T (mkRecord f false) (replicate k true)
       = (replicate k DFalse, mkRecord (f + Z.of_nat k) false).
Proof.
  induction k as [|k IH]; intros f Hk; simpl.
  - do 2 f_equal. lia.
  - unfold step; simpl.
    replace (T <=? f + 1) with false by (symmetry; apply Z.leb_gt; lia).
    simpl. rewrite IH by lia. f_equal. f_equal. lia.
Qed.

Lemma count_replicate_ne (x y : Decision) (k : nat) :
  x ≠ y → count_decision x (replicate k y) = 0%nat.
Proof.
  intros Hne. unfold count_decision. induction k as [|k IH]; simpl; [done|].
  rewrite filter_cons_False by congruence. done.
Qed.

(** Not yet alerted: a run of [k] DOWN checks raises one DOWN alert when it
    reaches the threshold, none otherwise. *)
Lemma downs_unalerted (k : nat) :
  ∀ f, count_decision DTrue (steps T (mkRecord f false) (replicate k true)).1
       = if bool_decide (1 ≤ k)%nat && (T <=? f + Z.of_nat k) then 1%nat else 0%nat.
Proof.
  induction k as [|k IH]; intros f; simpl; [done|].
  unfold step; simpl. rewrite andb_true_r.
  destruct (T <=? f + 1) eqn:E.
  - destruct (downs_alerted k (f + 1)) as [E1 _].
    destruct (steps T (mkRecord (f + 1) true) (replicate k true)) as [ds r2].
    simpl in *. subst ds.
    unfold count_decision. rewrite filter_cons_True by done. simpl.
    fold (count_decision DTrue (replicate k DFalse)).
    rewrite count_replicate_ne by done.
    replace (T <=? f + Z.of_nat (S k)) with true by (symmetry; apply Z.leb_le; lia).
    done.
  - specialize (IH (f + 1)).
    destruct (steps T (mkRecord (f + 1) false) (replicate k true)) as [ds r2].
    simpl in *. unfold count_decision in *.
    rewrite filter_cons_False by done. rewrite IH.
    replace (f + 1 + Z.of_nat k) with (f + Z.of_nat (S k)) by lia.
    destruct k; simpl; [|done].
    change (Z.of_nat 1) with 1. by rewrite E.
Qed.
End MachineFacts.

(** ** Idempotent DOWN alert *)

(** C1.  An endpoint whose stored record is fresh (absent, or failures 0 and
    alerted false) and that is DOWN on [k] consecutive checks, with
    [k >= ALERT_THRESHOLD] and at least one check: [should_alert] of Level 3
    completes on each of them and returns [True] on exactly one of the [k]
    checks. *)
Theorem down_run_alerts_once (T : Z) (key : string) (st : State) (k : nat) :
  Machine.record_of st key Machine.fresh →
  (1 ≤ k)%nat →
  T ≤ Z.of_nat k →
  ∃ ds st',
    Level3.should_alert_seq T key (replicate k true) st = Ok (ds, st')
    ∧ length ds = k
    ∧ count_decision DTrue ds = 1%nat.
Proof.
  intros Hfresh Hk HT.
  destruct (should_alert_seq_steps T key (replicate k true) st _ Hfresh)
    as (st' & Hrun & _ & _).
  eexists _, st'. split; [exact Hrun|]. split.
  - by rewrite steps_length, length_replicate.
  - unfold Machine.fresh. rewrite downs_unalerted.
    rewrite bool_decide_eq_true_2 by done.
    replace (T <=? 0 + Z.of_nat k) with true; [done|].
    symmetry. apply Z.leb_le. lia.
Qed.

Lemma down_run_alerts_once_witness :
  ∃ ds st',
    Level3.should_alert_seq 2 "GET:https://a/healthz" (replicate 3 true) ∅ = Ok (ds, st')
    ∧ length ds = 3%nat
    ∧ count_decision DTrue ds = 1%nat.
Proof.
  apply (down_run_alerts_once 2 "GET:https://a/healthz" ∅ 3);
    [reflexivity | lia | lia].
Defined.

(** C4.  With [ALERT_THRESHOLD = 2] and a fresh record, three consecutive
    DOWN checks are answered [False], [True], [False]: no alert on the first,
    the DOWN alert on the second, nothing more on the third. *)
Theorem threshold_two_boundary (key : string) (st : State) :
  Machine.record_of st key Machine.fresh →
  ∃ st',
    Level3.should_alert_seq 2 key [true; true; true] st
    = Ok ([DFalse; DTrue; DFalse], st').
Proof.
  intros Hfresh.
  destruct (should_alert_seq_steps 2 key [true; true; true] st _ Hfresh)
    as (st' & Hrun & _ & _).
  by exists st'.
Qed.

Lemma threshold_two_boundary_witness :
  ∃ st',
    Level3.should_alert_seq 2 "GET:https://httpbin.org/status/500"
      [true; true; true] ∅
    = Ok ([DFalse; DTrue; DFalse], st').
Proof.
  apply (threshold_two_boundary "GET:https://httpbin.org/status/500" ∅).
  reflexivity.
Defined.

(** ** The record invariant *)

(** C3.  Take any sequence of checks from a fresh record, and one more check
    after it.  Before that check, [alerted] is true only if the counter is
    positive.  The check completes, and: if it turns [alerted] from false to
    true, it is a DOWN check and leaves the counter at or above
    [ALERT_THRESHOLD]; if it is a successful check, it leaves the counter at 0
    and [alerted] false.  (No assumption on [ALERT_THRESHOLD] is needed.) *)
Theorem record_invariant (T : Z) (key : string) (checks : list bool)
    (st0 st1 : State) (ds : list Decision) (is_down : bool) :
  Machine.record_of st0 key Machine.fresh →
  Level3.should_alert_seq T key checks st0 = Ok (ds, st1) →
  ∃ r1 d st2 r2,
    Machine.record_of st1 key r1
    ∧ (Machine.alerted r1 = true → 0 < Machine.consecutive_failures r1)
    ∧ Level3.should_alert T key is_down st1 = Ok (d, st2)
    ∧ Machine.record_of st2 key r2
    ∧ (Machine.alerted r1 = false → Machine.alerted r2 = true →
         is_down = true ∧ T ≤ Machine.consecutive_failures r2)
    ∧ (Machine.alerted r2 = true → 0 < Machine.consecutive_failures r2)
    ∧ (is_down = false →
         Machine.consecutive_failures r2 = 0 ∧ Machine.alerted r2 = false).
Proof.
  intros Hfresh Hrun.
  destruct (should_alert_seq_steps T key checks st0 _ Hfresh)
    as (st1' & Hrun' & Hr1 & _).
  rewrite Hrun in Hrun'. injection Hrun' as _ <-.
  pose proof (steps_inv T checks _ fresh_inv) as Hinv.
  set (r1 := (Machine.steps T Machine.fresh checks).2) in *.
  destruct (should_alert_step T key is_down st1 r1 Hr1) as (st2 & Hstep & Hr2 & _).
  pose proof (step_inv T r1 is_down Hinv) as Hinv2.
  exists r1, (Machine.step T r1 is_down).1, st2, (Machine.step T r1 is_down).2.
  destruct Hinv as [Hpos Hal]. destruct Hinv2 as [_ Hal2].
  split; [exact Hr1|]. split; [exact Hal|]. split; [exact Hstep|].
  split; [exact Hr2|]. split; [|split; [exact Hal2|]].
  - intros Hno Hyes. destruct r1 as [f a]; simpl in *. subst a.
    revert Hyes. unfold Machine.step. destruct is_down; simpl.
    + rewrite andb_true_r. destruct (T <=? f + 1) eqn:E; simpl; [|done].
      intros _. split; [done|]. by apply Z.leb_le.
    + destruct (0 <? f); simpl; done.
  - intros ->. unfold Machine.step.
    destruct (0 <? Machine.consecutive_failures r1) eqn:E; simpl; [done|].
    apply Z.ltb_ge in E. split; [lia|].
    destruct (Machine.alerted r1); [|done]. specialize (Hal eq_refl). lia.
Qed.

Lemma record_invariant_witness :
  ∃ r1 d st2 r2,
    Machine.record_of
      {[ "GET:https://a" := PDict {[ "failures" := PInt 2; "alerted" := PBool true ]} ]}
      "GET:https://a" r1
    ∧ (Machine.alerted r1 = true → 0 < Machine.consecutive_failures r1)
    ∧ Level3.should_alert 2 "GET:https://a" false
        {[ "GET:https://a" := PDict {[ "failures" := PInt 2; "alerted" := PBool true ]} ]}
      = Ok (d, st2)
    ∧ Machine.record_of st2 "GET:https://a" r2
    ∧ (Machine.alerted r1 = false → Machine.alerted r2 = true →
         false = true ∧ 2 ≤ Machine.consecutive_failures r2)
    ∧ (Machine.alerted r2 = true → 0 < Machine.consecutive_failures r2)
    ∧ (false = false →
         Machine.consecutive_failures r2 = 0 ∧ Machine.alerted r2 = false).
Proof.
  apply (record_invariant 2 "GET:https://a" [true; true] ∅ _ [DFalse; DTrue] false).
  - reflexivity.
  - vm_compute. reflexivity.
Defined.

(** ** Recovery *)

(** C2, as stated, fails: with [ALERT_THRESHOLD = 2], one DOWN check and then
    a successful one.  The record before the successful check has [alerted]
    false, yet [should_alert] answers ["RECOVERED"] and [run] sends a
    RECOVERED alert. *)
Lemma recovered_without_down_alert :
  Level3.should_alert_seq 2 "GET:https://httpbin.org/status/500" [true] ∅
  = Ok ([DFalse], {[ "GET:https://httpbin.org/status/500" := record_dict 1 false ]})
  ∧ Level3.should_alert 2 "GET:https://httpbin.org/status/500" false
      {[ "GET:https://httpbin.org/status/500" := record_dict 1 false ]}
    = Ok (DRecovered, {[ "GET:https://httpbin.org/status/500" := record_dict 0 false ]})
  ∧ Level3.check 2 (FFin 2) failing_api (false, FFin (5 # 10)) ∅
    = Ok ([], {[ "GET:https://httpbin.org/status/500" := record_dict 1 false ]})
  ∧ Level3.check 2 (FFin 2) failing_api (true, FFin (5 # 10))
      {[ "GET:https://httpbin.org/status/500" := record_dict 1 false ]}
    = Ok ([("Failing API", AlertRecovered)],
          {[ "GET:https://httpbin.org/status/500" := record_dict 0 false ]}).
Proof. repeat split; vm_compute; reflexivity. Qed.

(** C2, amended.  From a fresh record: after any sequence of checks, a check
    that is not DOWN is answered ["RECOVERED"] if and only if the counter was
    positive before it; [alerted] being true before it is enough for that, and
    the answer is never [True].  A run of [j] DOWN checks below the threshold
    ([1 <= j < ALERT_THRESHOLD]) followed by a successful check is answered
    [False] [j] times and then ["RECOVERED"]: no DOWN alert, one RECOVERED. *)
Theorem recovered_iff_counter_positive (T : Z) (key : string) (st0 : State) :
  Machine.record_of st0 key Machine.fresh →
  (∀ (checks : list bool) (ds : list Decision) (st1 : State),
     Level3.should_alert_seq T key checks st0 = Ok (ds, st1) →
     ∃ r1 d st2,
       Machine.record_of st1 key r1
       ∧ Level3.should_alert T key false st1 = Ok (d, st2)
       ∧ (d = DRecovered ↔ 0 < Machine.consecutive_failures r1)
       ∧ (Machine.alerted r1 = true → d = DRecovered)
       ∧ d ≠ DTrue)
  ∧ (∀ j : nat,
       (1 ≤ j)%nat → Z.of_nat j < T →
       ∃ st',
         Level3.should_alert_seq T key (replicate j true ++ [false]) st0
         = Ok (replicate j DFalse ++ [DRecovered], st')).
Proof.
  intros Hfresh. split.
  - intros checks ds st1 Hrun.
    destruct (should_alert_seq_steps T key checks st0 _ Hfresh)
      as (st1' & Hrun' & Hr1 & _).
    rewrite Hrun in Hrun'. injection Hrun' as _ <-.
    destruct (steps_inv T checks _ fresh_inv) as [_ Hal].
    set (r1 := (Machine.steps T Machine.fresh checks).2) in *.
    destruct (should_alert_step T key false st1 r1 Hr1) as (st2 & Hstep & _ & _).
    exists r1, (Machine.step T r1 false).1, st2.
    split; [done|]. split; [done|].
    unfold Machine.step.
    destruct (0 <? Machine.consecutive_failures r1) eqn:E; simpl.
    + apply Z.ltb_lt in E. repeat split; done.
    + apply Z.ltb_ge in E. repeat split; try done; try lia.
      intros Ha. specialize (Hal Ha). lia.
  - intros j Hj HT.
    destruct (should_alert_seq_steps T key (replicate j true ++ [false]) st0 _ Hfresh)
      as (st' & Hrun & _ & _).
    exists st'. rewrite Hrun. do 2 f_equal.
    rewrite steps_app. simpl. unfold Machine.fresh.
    rewrite downs_below by lia. simpl. unfold Machine.step. simpl.
    replace (0 <? 0 + Z.of_nat j) with true; [done|].
    symmetry. apply Z.ltb_lt. lia.
Qed.

Lemma recovered_iff_counter_positive_witness :
  (∃ r1 d st2,
     Machine.record_of
       {[ "GET:https://httpbin.org/status/500" := record_dict 1 false ]}
       "GET:https://httpbin.org/status/500" r1
     ∧ Level3.should_alert 3 "GET:https://httpbin.org/status/500" false
         {[ "GET:https://httpbin.org/status/500" := record_dict 1 false ]}
       = Ok (d, st2)
     ∧ (d = DRecovered ↔ 0 < Machine.consecutive_failures r1)
     ∧ (Machine.alerted r1 = true → d = DRecovered)
     ∧ d ≠ DTrue)
  ∧ (∃ st',
       Level3.should_alert_seq 3 "GET:https://httpbin.org/status/500"
         (replicate 2 true ++ [false]) ∅
       = Ok (replicate 2 DFalse ++ [DRecovered], st')).
Proof.
  destruct (recovered_iff_counter_positive 3 "GET:https://httpbin.org/status/500" ∅)
    as [Hany Hbelow]; [reflexivity|].
  split.
  - apply (Hany [true] [DFalse]). vm_compute. reflexivity.
  - apply (Hbelow 2%nat); lia.
Defined.

(** ** SLOW checks *)

Lemma classify_slow_is_up (M : pyfloat) (is_up : bool) (rt : pyfloat) :
  Level3.classify M is_up rt = SLOW → is_up = true.
Proof. unfold Level3.classify. by destruct is_up. Qed.

(** What one SLOW check does, on a well-formed or absent record: the same
    [should_alert] step as any check that is not DOWN, with the SLOW alert
    sent only if that step answers [False]. *)
Lemma slow_check (T : Z) (M : pyfloat) (server : Server) (is_up : bool)
    (rt : pyfloat) (st : State) (r : Machine.EndpointRecord) :
  Level3.classify M is_up rt = SLOW →
  Machine.record_of st (endpoint_key server) r →
  ∃ st',
    Level3.check T M server (is_up, rt) st
    = Ok ((λ k, (name server, k)) <$>
            Level3.dispatch (Machine.step T r false).1 SLOW, st')
    ∧ Machine.record_of st' (endpoint_key server) (Machine.step T r false).2.
Proof.
  intros Hslow Hr. unfold Level3.check. rewrite Hslow.
  destruct (should_alert_step T (endpoint_key server) false st r Hr)
    as (st' & Hstep & Hr' & _).
  rewrite bool_decide_eq_false_2 by done. rewrite Hstep.
  by exists st'.
Qed.

(** C7, as stated, fails: a stored counter of 1, then a SLOW check (3.0 s
    against a limit of 2.0 s) leaves the counter at 0. *)
Lemma slow_check_resets_counter :
  Level3.classify (FFin 2) true (FFin 3) = SLOW
  ∧ ∃ sent,
      Level3.check 2 (FFin 2) slow_api (true, FFin 3)
        {[ "GET:https://httpbin.org/delay/3" := record_dict 1 false ]}
      = Ok (sent, {[ "GET:https://httpbin.org/delay/3" := record_dict 0 false ]}).
Proof. split; [reflexivity|]. eexists. vm_compute. reflexivity. Qed.

(** C7, amended.  A check classified SLOW never increments the counter: on a
    well-formed (or absent) record it leaves the counter as it is when the
    counter is not positive, and resets it to 0 when it is positive. *)
Theorem slow_check_counter (T : Z) (M : pyfloat) (server : Server) (is_up : bool)
    (rt : pyfloat) (st : State) (r : Machine.EndpointRecord) :
  Level3.classify M is_up rt = SLOW →
  Machine.record_of st (endpoint_key server) r →
  ∃ sent st' r',
    Level3.check T M server (is_up, rt) st = Ok (sent, st')
    ∧ Machine.record_of st' (endpoint_key server) r'
    ∧ Machine.consecutive_failures r'
      = (if 0 <? Machine.consecutive_failures r
         then 0 else Machine.consecutive_failures r).
Proof.
  intros Hslow Hr.
  destruct (slow_check T M server is_up rt st r Hslow Hr) as (st' & Hc & Hr').
  eexists _, st', _. split; [exact Hc|]. split; [exact Hr'|].
  unfold Machine.step. by destruct (0 <? _).
Qed.

Lemma slow_check_counter_witness :
  ∃ sent st' r',
    Level3.check 2 (FFin 2) slow_api (true, FFin 3) ∅ = Ok (sent, st')
    ∧ Machine.record_of st' (endpoint_key slow_api) r'
    ∧ Machine.consecutive_failures r'
      = (if 0 <? Machine.consecutive_failures Machine.fresh
         then 0 else Machine.consecutive_failures Machine.fresh).
Proof.
  apply (slow_check_counter 2 (FFin 2) slow_api true (FFin 3) ∅ Machine.fresh);
    reflexivity.
Defined.

(** C9, as stated, fails: a stored record of an alerted outage (counter 3,
    [alerted] true), then a SLOW check.  The only alert sent is RECOVERED;
    no SLOW alert goes out. *)
Lemma slow_check_sends_recovered_only :
  Level3.classify (FFin 2) true (FFin 3) = SLOW
  ∧ Level3.check 2 (FFin 2) slow_api (true, FFin 3)
      {[ "GET:https://httpbin.org/delay/3" := record_dict 3 true ]}
    = Ok ([("Slow API", AlertRecovered)],
          {[ "GET:https://httpbin.org/delay/3" := record_dict 0 false ]}).
Proof. split; [reflexivity|]. vm_compute. reflexivity. Qed.

(** C9, amended.  A check classified SLOW, on a well-formed (or absent)
    record, sends exactly one alert: the SLOW alert when the stored counter is
    not positive, and the RECOVERED alert, without a SLOW alert, when it is
    positive. *)
Theorem slow_check_alert (T : Z) (M : pyfloat) (server : Server) (is_up : bool)
    (rt : pyfloat) (st : State) (r : Machine.EndpointRecord) :
  Level3.classify M is_up rt = SLOW →
  Machine.record_of st (endpoint_key server) r →
  ∃ st',
    Level3.check T M server (is_up, rt) st
    = Ok ([(name server,
            if 0 <? Machine.consecutive_failures r
            then AlertRecovered else AlertSlow)], st').
Proof.
  intros Hslow Hr.
  destruct (slow_check T M server is_up rt st r Hslow Hr) as (st' & Hc & _).
  exists st'. rewrite Hc. unfold Machine.step. by destruct (0 <? _).
Qed.

Lemma slow_check_alert_witness :
  ∃ st',
    Level3.check 2 (FFin 2) slow_api (true, FFin 3) ∅
    = Ok ([("Slow API", AlertSlow)], st').
Proof.
  apply (slow_check_alert 2 (FFin 2) slow_api true (FFin 3) ∅ Machine.fresh);
    reflexivity.
Defined.

(** ** Malformed records *)




(** ** Classification *)

Lemma float_le_not_gt (a b : pyfloat) : float_le a b = true → float_gt a b = false.
Proof. destruct a, b; simpl; try done. by intros ->. Qed.

Lemma float_le_refl (a : pyfloat) : a ≠ FNaN → float_le a a = true.
Proof.
  destruct a; simpl; try done. intros _. apply Qle_bool_iff, Qle_refl.
Qed.

(** On finite floats [>] and [<=] are the order of the values. *)
Lemma float_gt_finite (x y : Q) : float_gt (FFin x) (FFin y) = true ↔ (y < x)%Q.
Proof.
  simpl. rewrite negb_true_iff. split.
  - intros H. apply Qnot_le_lt. intros Hle. apply Qle_bool_iff in Hle. congruence.
  - intros H. destruct (Qle_bool x y) eqn:E; [|done].
    apply Qle_bool_iff in E. by apply Qlt_not_le in H.
Qed.

Lemma float_le_finite (x y : Q) : float_le (FFin x) (FFin y) = true ↔ (x <= y)%Q.
Proof. apply Qle_bool_iff. Qed.

(** C5.  A failed probe is DOWN whatever the elapsed time; a successful one
    is SLOW when the elapsed time is greater than [MAX_RESPONSE_TIME], and UP
    when it is less than or equal to it, in particular when it is equal. *)
Theorem classification (M : pyfloat) (is_up : bool) (rt : pyfloat) :
  (is_up = false → Level3.classify M is_up rt = DOWN)
  ∧ (is_up = true → float_gt rt M = true → Level3.classify M is_up rt = SLOW)
  ∧ (is_up = true → float_le rt M = true → Level3.classify M is_up rt = UP)
  ∧ (is_up = true → rt = M → M ≠ FNaN → Level3.classify M is_up rt = UP).
Proof.
  unfold Level3.classify. repeat split.
  - by intros ->.
  - by intros -> ->.
  - intros -> Hle. simpl. by rewrite (float_le_not_gt _ _ Hle).
  - intros -> -> HM. simpl.
    by rewrite (float_le_not_gt _ _ (float_le_refl M HM)).
Qed.

Lemma classification_witness :
  Level3.classify (FFin 2) false (FFin (1 # 100)) = DOWN
  ∧ Level3.classify (FFin 2) true (FFin (201 # 100)) = SLOW
  ∧ Level3.classify (FFin 2) true (FFin (199 # 100)) = UP
  ∧ Level3.classify (FFin 2) true (FFin 2) = UP.
Proof.
  split; [|split; [|split]].
  - destruct (classification (FFin 2) false (FFin (1 # 100))) as (H & _).
    apply H. reflexivity.
  - destruct (classification (FFin 2) true (FFin (201 # 100))) as (_ & H & _).
    apply H; reflexivity.
  - destruct (classification (FFin 2) true (FFin (199 # 100))) as (_ & _ & H & _).
    apply H; reflexivity.
  - destruct (classification (FFin 2) true (FFin 2)) as (_ & _ & _ & H).
    apply H; [reflexivity | reflexivity | discriminate].
Defined.

(** ** The state store *)

(** C6, as stated, fails.  [load_state] of Level 1 has no handler: on a state
    file that is not JSON it raises [JSONDecodeError].  [load_state] of
    Level 3 catches that exception only: on a state file whose bytes are not
    text it raises [UnicodeDecodeError]. *)
Lemma load_state_raises :
  Level1.load_state (Some NotJson) = Raise JSONDecodeError
  ∧ Level3.load_state (Some NotText) = Raise UnicodeDecodeError.
Proof. split; reflexivity. Qed.

(** C6, amended.  In both levels, saving what was loaded from a well-formed
    state file leaves the file as it was, loading what was saved gives the
    mapping back, and loading an absent file gives the empty mapping.  On a
    state file that is not JSON, [load_state] of Level 3 gives the empty
    mapping and [load_state] of Level 1 raises [JSONDecodeError]. *)
Theorem state_roundtrip (m : State) :
  (Level3.load_state (Some (JsonObject m)) = Ok m
   ∧ Level3.save_state m = Some (JsonObject m)
   ∧ Level3.load_state (Level3.save_state m) = Ok m
   ∧ Level3.load_state None = Ok ∅
   ∧ Level3.load_state (Some NotJson) = Ok ∅)
  ∧ (Level1.load_state (Some (JsonObject m)) = Ok m
     ∧ Level1.save_state m = Some (JsonObject m)
     ∧ Level1.load_state (Level1.save_state m) = Ok m
     ∧ Level1.load_state None = Ok ∅
     ∧ Level1.load_state (Some NotJson) = Raise JSONDecodeError).
Proof. repeat split. Qed.

(** ** Level 1 against Level 3 *)

Section Levels.
Import Machine.
Variable T : Z.

Lemma truthy_timestamp (now : string) : now ≠ "" → truthy (PStr now) = true.
Proof.
  intros Hne. simpl. apply negb_true_iff. by apply String.eqb_neq.
Qed.

Lemma should_alert_record_step_L1 (is_down : bool) (now : string) (v : pyval)
    (r : EndpointRecord) :
  now ≠ "" →
  represents_L1 v r →
  ∃ v', Level1.should_alert_record T is_down now v = Ok ((step_L1 T r is_down).1, v')
        ∧ represents_L1 v' (step_L1 T r is_down).2.
Proof.
  intros Hnow (d & a & -> & Hf & Ha & Htr).
  destruct r as [f al]; simpl in *.
  unfold Level1.should_alert_record, step_L1; simpl.
  destruct is_down; simpl; rewrite Hf; simpl.
  - rewrite lookup_insert_eq; simpl.
    rewrite lookup_insert_ne by done. rewrite Ha; simpl. rewrite Htr.
    destruct (T <=? f + 1); simpl.
    + destruct al; simpl.
      * eexists; split; [done|]. exists (<["consecutive_failures" := PInt (f + 1)]> d), a.
        simpl. by rewrite lookup_insert_eq, lookup_insert_ne, Ha.
      * eexists; split; [done|].
        eexists _, (PStr now). split; [done|]. simpl.
        rewrite lookup_insert_ne, !lookup_insert_eq by done.
        repeat split. by apply truthy_timestamp.
    + eexists; split; [done|]. exists (<["consecutive_failures" := PInt (f + 1)]> d), a.
      simpl. by rewrite lookup_insert_eq, lookup_insert_ne, Ha.
  - eexists; split; [done|]. eexists _, PNone. split; [done|]. simpl.
    by rewrite lookup_insert_ne, !lookup_insert_eq.
Qed.

Lemma fresh_record_represents_L1 : represents_L1 Level1.fresh_record fresh.
Proof. eexists _, PNone. done. Qed.

Lemma should_alert_step_L1 (url : string) (is_down : bool) (now : string)
    (st : State) (r : EndpointRecord) :
  now ≠ "" →
  record_of_L1 st url r →
  ∃ st', Level1.should_alert T url is_down now st = Ok ((step_L1 T r is_down).1, st')
         ∧ record_of_L1 st' url (step_L1 T r is_down).2.
Proof.
  unfold record_of_L1, Level1.should_alert. intros Hnow Hr.
  destruct (st !! url) as [v|] eqn:Hk.
  - rewrite decide_True by done. rewrite Hk.
    destruct (should_alert_record_step_L1 is_down now v r Hnow Hr) as (v' & -> & Hv').
    eexists; split; [done|]. by rewrite lookup_insert_eq.
  - subst r. rewrite decide_False by (by intros [? ?]).
    rewrite lookup_insert_eq.
    destruct (should_alert_record_step_L1 is_down now _ _ Hnow
                fresh_record_represents_L1) as (v' & -> & Hv').
    eexists; split; [done|]. by rewrite lookup_insert_eq.
Qed.

(** On records reachable from a fresh one the two transitions coincide. *)
Lemma step_L1_step (r : EndpointRecord) (is_down : bool) :
  reachable_inv r →
  step_L1 T r is_down
  = (bool_decide ((step T r is_down).1 = DTrue), (step T r is_down).2).
Proof.
  destruct r as [f a]. unfold reachable_inv, step_L1, step; simpl. intros [Hf Ha].
  destruct is_down.
  - by destruct ((T <=? f + 1) && negb a).
  - destruct (0 <? f) eqn:E; simpl; [done|]. apply Z.ltb_ge in E.
    destruct a; [specialize (Ha eq_refl); lia|].
    do 2 f_equal. lia.
Qed.

Lemma should_alert_seq_steps_L1 (url : string) (checks : list (bool * string)) :
  ∀ (st : State) (r : EndpointRecord),
    Forall (λ c, c.2 ≠ "") checks →
    reachable_inv r →
    record_of_L1 st url r →
    ∃ st', Level1.should_alert_seq T url checks st
           = Ok (down_alert_positions (steps T r checks.*1).1, st').
Proof.
  induction checks as [|[b now] checks IH]; intros st r Hnow Hinv Hr; simpl.
  - by exists st.
  - apply Forall_cons in Hnow as [Hnow Hrest]. simpl in Hnow.
    destruct (should_alert_step_L1 url b now st r Hnow Hr) as (st1 & -> & Hr1).
    rewrite (step_L1_step r b Hinv) in Hr1 |- *. simpl in *.
    pose proof (step_inv T r b Hinv) as Hinv1.
    destruct (step T r b) as [d r1]; simpl in *.
    destruct (IH st1 r1 Hrest Hinv1 Hr1) as (st2 & ->).
    change (list_fmap (bool * string)%type bool fst checks) with (checks.*1).
    destruct (steps T r1 checks.*1) as [ds r2]; simpl.
    by exists st2.
Qed.
End Levels.

(** C10.  For every sequence of checks on one key, from an empty state and
    at a common threshold, [should_alert] of Level 1 and of Level 3 both
    complete on every check, and Level 1 returns [True] exactly at the
    positions where Level 3 returns [True].  The clock readings Level 1
    stores are non-empty strings, as [datetime.isoformat] produces them. *)
Theorem levels_alert_at_same_positions (T : Z) (key : string)
    (checks : list (bool * string)) :
  Forall (λ c, c.2 ≠ "") checks →
  ∃ bs st1 ds st3,
    Level1.should_alert_seq T key checks ∅ = Ok (bs, st1)
    ∧ Level3.should_alert_seq T key checks.*1 ∅ = Ok (ds, st3)
    ∧ bs = down_alert_positions ds.
Proof.
  intros Hnow.
  destruct (should_alert_seq_steps_L1 T key checks ∅ Machine.fresh Hnow fresh_inv)
    as (st1 & H1); [done|].
  destruct (should_alert_seq_steps T key checks.*1 ∅ Machine.fresh) as (st3 & H3 & _);
    [done|].
  by eexists _, st1, _, st3.
Qed.

Lemma levels_alert_at_same_positions_witness :
  ∃ bs st1 ds st3,
    Level1.should_alert_seq 2 "https://example.com"
      [(true, "2024-01-01T00:00:00"); (true, "2024-01-01T00:05:00");
       (true, "2024-01-01T00:10:00"); (false, "2024-01-01T00:15:00");
       (true, "2024-01-01T00:20:00")] ∅
    = Ok (bs, st1)
    ∧ Level3.should_alert_seq 2 "https://example.com"
        [true; true; true; false; true] ∅
      = Ok (ds, st3)
    ∧ bs = down_alert_positions ds.
Proof.
  apply (levels_alert_at_same_positions 2 "https://example.com"
           [(true, "2024-01-01T00:00:00"); (true, "2024-01-01T00:05:00");
            (true, "2024-01-01T00:10:00"); (false, "2024-01-01T00:15:00");
            (true, "2024-01-01T00:20:00")]).
  repeat constructor; discriminate.
Defined.

(** ** Level 1 on a run of DOWN checks *)

Lemma count_true_positions (ds : list Decision) :
  count_true (down_alert_positions ds) = count_decision DTrue ds.
Proof.
  unfold count_true, count_decision, down_alert_positions.
  induction ds as [|d ds IH]; [done|].
  rewrite fmap_cons. destruct d.
  - rewrite !filter_cons_True by done. simpl. by rewrite IH.
  - rewrite !filter_cons_False by done. exact IH.
  - rewrite !filter_cons_False by done. exact IH.
Qed.

(** [should_alert] of Level 1 is idempotent in the same way: from a fresh
    record, [k >= 1] consecutive DOWN checks with [k >= ALERT_THRESHOLD] are
    answered [True] exactly once. *)
Theorem level1_one_alert_per_outage (T : Z) (url : string) (st : State)
    (nows : list string) :
  Machine.record_of_L1 st url Machine.fresh →
  Forall (λ now, now ≠ "") nows →
  (1 ≤ length nows)%nat →
  T ≤ Z.of_nat (length nows) →
  ∃ bs st',
    Level1.should_alert_seq T url ((λ now, (true, now)) <$> nows) st = Ok (bs, st')
    ∧ count_true bs = 1%nat.
Proof.
  intros Hfresh Hnow Hk HT.
  destruct (should_alert_seq_steps_L1 T url ((λ now, (true, now)) <$> nows) st
              Machine.fresh) as (st' & Hrun); [|apply fresh_inv|exact Hfresh|].
  - apply Forall_fmap. by eapply Forall_impl; [exact Hnow|].
  - eexists _, st'. split; [exact Hrun|].
    rewrite count_true_positions.
    replace (((λ now, (true, now)) <$> nows).*1) with (replicate (length nows) true).
    + unfold Machine.fresh. rewrite downs_unalerted.
      rewrite bool_decide_eq_true_2 by done.
      replace (T <=? 0 + Z.of_nat (length nows)) with true; [done|].
      symmetry. apply Z.leb_le. lia.
    + clear. induction nows as [|n nows IH]; [done|]. simpl. by rewrite IH.
Qed.

(** [should_alert] of Level 1, whose threshold is 2, on three consecutive
    DOWN checks: [False], [True], [False]. *)
Theorem level1_second_failure_alerts (url : string) (st : State) (n1 n2 n3 : string) :
  Machine.record_of_L1 st url Machine.fresh →
  n1 ≠ "" → n2 ≠ "" → n3 ≠ "" →
  ∃ st',
    Level1.should_alert_seq 2 url [(true, n1); (true, n2); (true, n3)] st
    = Ok ([false; true; false], st').
Proof.
  intros Hfresh H1 H2 H3.
  destruct (should_alert_seq_steps_L1 2 url [(true, n1); (true, n2); (true, n3)] st
              Machine.fresh) as (st' & Hrun);
    [by repeat constructor | apply fresh_inv | exact Hfresh |].
  by exists st'.
Qed.

(** * Further properties of the code *)

Set Warnings "-clear-no-such-hyp".

(** ** What [should_alert] touches *)

(** X1.  Whenever [should_alert] of Level 3 returns, the record of every
    other endpoint is exactly as before, and the checked endpoint has a
    record; this holds for any store, well-formed or not. *)
Theorem should_alert_frame (T : Z) (key : string) (is_down : bool)
    (st st' : State) (d : Decision) :
  Level3.should_alert T key is_down st = Ok (d, st') →
  (∀ k, k ≠ key → st' !! k = st !! k) ∧ is_Some (st' !! key).
Proof.
  unfold Level3.should_alert, setdefault.
  destruct (st !! key) as [v|] eqn:Hk.
  - destruct (Level3.should_alert_record T is_down v) as [[d0 v']|e]; [|done].
    intros [= <- <-]. split.
    + intros k Hne. by rewrite lookup_insert_ne.
    + rewrite lookup_insert_eq. by eexists.
  - destruct (Level3.should_alert_record T is_down Level3.fresh_record)
      as [[d0 v']|e]; [|done].
    intros [= <- <-]. split.
    + intros k Hne. by rewrite !lookup_insert_ne.
    + rewrite lookup_insert_eq. by eexists.
Qed.

Lemma should_alert_frame_witness :
  (∀ k, k ≠ "GET:https://a" →
     ({[ "GET:https://a" := record_dict 1 false;
         "GET:https://b" := PDict ∅ ]} : State) !! k
     = ({[ "GET:https://b" := PDict ∅ ]} : State) !! k)
  ∧ is_Some (({[ "GET:https://a" := record_dict 1 false;
                 "GET:https://b" := PDict ∅ ]} : State) !! "GET:https://a").
Proof.
  apply (should_alert_frame 2 "GET:https://a" true
           {[ "GET:https://b" := PDict ∅ ]} _ DFalse).
  vm_compute. reflexivity.
Defined.

(** ** The record and the answers follow the failure streak *)

Section Streak.
Import Machine.
Variable T : Z.

Lemma step_streak (s : nat) (is_down : bool) :
  step T (streak_record T s) is_down
  = (streak_decision T s is_down, streak_record T (streak_step s is_down)).
Proof.
  unfold step, streak_record, streak_decision, streak_step, alert_due; simpl.
  destruct is_down.
  - rewrite Nat2Z.inj_succ.
    destruct (Z.leb_spec T (Z.of_nat s + 1)), (Z.leb_spec T (Z.of_nat s)),
      (Z.leb_spec 1 (Z.of_nat s)), (Z.leb_spec T (Z.succ (Z.of_nat s))),
      (Z.leb_spec 1 (Z.succ (Z.of_nat s)));
      simpl; case_bool_decide; try lia; try (f_equal; f_equal; lia).
  - destruct (Z.ltb_spec 0 (Z.of_nat s)); case_bool_decide; try lia.
    + by rewrite andb_false_r.
    + destruct s; [|lia]. done.
Qed.

Lemma steps_streak (checks : list bool) :
  ∀ s, steps T (streak_record T s) checks
       = (streak_decisions T s checks, streak_record T (foldl streak_step s checks)).
Proof.
  induction checks as [|b checks IH]; intros s; simpl; [done|].
  rewrite step_streak. by rewrite IH.
Qed.

Lemma fresh_streak_record : fresh = streak_record T 0.
Proof. unfold fresh, streak_record, alert_due. simpl. by rewrite andb_false_r. Qed.
End Streak.

(** X2.  After any sequence of checks from a fresh record, the stored counter
    is the length of the current run of DOWN checks, and the stored [alerted]
    is true exactly when that run has reached [ALERT_THRESHOLD] and is not
    empty: the record depends on the current streak only. *)
Theorem record_follows_streak (T : Z) (key : string) (checks : list bool)
    (st st' : State) (ds : list Decision) :
  Machine.record_of st key Machine.fresh →
  Level3.should_alert_seq T key checks st = Ok (ds, st') →
  Machine.record_of st' key
    (Machine.mkRecord (Z.of_nat (down_streak checks))
       (bool_decide (T ≤ Z.of_nat (down_streak checks)
                     ∧ (1 ≤ down_streak checks)%nat))).
Proof.
  intros Hfresh Hrun.
  destruct (should_alert_seq_steps T key checks st _ Hfresh) as (st1 & Hrun' & Hr & _).
  rewrite Hrun in Hrun'. injection Hrun' as _ <-.
  rewrite (fresh_streak_record T), steps_streak in Hr. simpl in Hr.
  unfold streak_record, alert_due in Hr. fold (down_streak checks) in Hr.
  replace (bool_decide _) with
    ((T <=? Z.of_nat (down_streak checks)) && (1 <=? Z.of_nat (down_streak checks)));
    [exact Hr|].
  destruct (Z.leb_spec T (Z.of_nat (down_streak checks))),
    (Z.leb_spec 1 (Z.of_nat (down_streak checks)));
    simpl; case_bool_decide; try done; lia.
Qed.

Lemma record_follows_streak_witness :
  Machine.record_of
    {[ "GET:https://a" := record_dict 3 true ]} "GET:https://a"
    (Machine.mkRecord (Z.of_nat (down_streak [true; false; true; true; true]))
       (bool_decide (2 ≤ Z.of_nat (down_streak [true; false; true; true; true])
                     ∧ (1 ≤ down_streak [true; false; true; true; true])%nat))).
Proof.
  apply (record_follows_streak 2 "GET:https://a" [true; false; true; true; true] ∅ _
           [DFalse; DRecovered; DFalse; DTrue; DFalse]).
  - reflexivity.
  - vm_compute. reflexivity.
Defined.

(** X3.  From a fresh record, the answers of [should_alert] to any sequence
    of checks are those the streak predicts: [True] on the DOWN check that
    brings the streak to [max(ALERT_THRESHOLD, 1)], ["RECOVERED"] on a check
    that is not DOWN and follows a DOWN check, [False] everywhere else. *)
Theorem decisions_follow_streak (T : Z) (key : string) (checks : list bool)
    (st : State) :
  Machine.record_of st key Machine.fresh →
  ∃ st', Level3.should_alert_seq T key checks st
         = Ok (streak_decisions T 0 checks, st').
Proof.
  intros Hfresh.
  destruct (should_alert_seq_steps T key checks st _ Hfresh) as (st1 & Hrun & _).
  exists st1. rewrite Hrun. by rewrite (fresh_streak_record T), steps_streak.
Qed.

Lemma decisions_follow_streak_witness :
  ∃ st', Level3.should_alert_seq 3 "GET:https://a" [true; true; false; true; true; true; true] ∅
         = Ok (streak_decisions 3 0 [true; true; false; true; true; true; true], st').
Proof.
  apply (decisions_follow_streak 3 "GET:https://a"
           [true; true; false; true; true; true; true] ∅).
  reflexivity.
Defined.

(** ** Alerts come in pairs *)

Lemma count_decision_cons (x d : Decision) (ds : list Decision) :
  count_decision x (d :: ds)
  = ((if decide (d = x) then 1 else 0) + count_decision x ds)%nat.
Proof.
  unfold count_decision. rewrite filter_cons. by destruct (decide (d = x)).
Qed.

Lemma steps_down_alerts_bounded (T : Z) (checks : list bool) :
  ∀ r, (count_decision DTrue (Machine.steps T r checks).1
        ≤ count_decision DRecovered (Machine.steps T r checks).1
          + (if Machine.alerted r then 0 else 1))%nat.
Proof.
  induction checks as [|b checks IH]; intros [f a]; simpl.
  - unfold count_decision. simpl. lia.
  - unfold Machine.step; simpl. destruct b.
    + destruct (T <=? f + 1), a; simpl;
        match goal with
        | |- context [Machine.steps T ?r checks] =>
            specialize (IH r); destruct (Machine.steps T r checks) as [ds r2]
        end; cbn [fst Machine.alerted] in *; rewrite !count_decision_cons;
        repeat case_decide; try done; lia.
    + destruct (0 <? f), a; simpl;
        match goal with
        | |- context [Machine.steps T ?r checks] =>
            specialize (IH r); destruct (Machine.steps T r checks) as [ds r2]
        end; cbn [fst Machine.alerted] in *; rewrite !count_decision_cons;
        repeat case_decide; try done; lia.
Qed.

(** X4.  Over any sequence of checks of one endpoint, starting from any
    well-formed record, the DOWN alerts never outnumber the recovery notices
    by more than one, and not at all if the record starts out alerted:
    between two DOWN alerts there is always a recovery. *)
Theorem down_alerts_bounded_by_recoveries (T : Z) (key : string)
    (checks : list bool) (st st' : State) (r : Machine.EndpointRecord)
    (ds : list Decision) :
  Machine.record_of st key r →
  Level3.should_alert_seq T key checks st = Ok (ds, st') →
  (count_decision DTrue ds
   ≤ count_decision DRecovered ds + (if Machine.alerted r then 0 else 1))%nat.
Proof.
  intros Hr Hrun.
  destruct (should_alert_seq_steps T key checks st r Hr) as (st1 & Hrun' & _).
  rewrite Hrun in Hrun'. injection Hrun' as -> _.
  apply steps_down_alerts_bounded.
Qed.

Lemma down_alerts_bounded_by_recoveries_witness :
  (count_decision DTrue [DFalse; DFalse; DRecovered; DFalse; DTrue; DFalse]
   ≤ count_decision DRecovered [DFalse; DFalse; DRecovered; DFalse; DTrue; DFalse]
     + (if Machine.alerted (Machine.mkRecord 2 true) then 0 else 1))%nat.
Proof.
  apply (down_alerts_bounded_by_recoveries 2 "GET:https://a"
           [true; true; false; true; true; true]
           {[ "GET:https://a" := record_dict 2 true ]}
           {[ "GET:https://a" := record_dict 3 true ]} (Machine.mkRecord 2 true)).
  - by exists {[ "failures" := PInt 2; "alerted" := PBool true ]}, (PBool true).
  - vm_compute. reflexivity.
Defined.

(** ** Healthy endpoints *)

(** X5.  A check that is not DOWN, on a stored record whose counter is an
    integer that is not positive, is answered [False] and leaves the whole
    store exactly as it was; [alerted] is not even read. *)
Theorem healthy_check_changes_nothing (T : Z) (key : string) (st : State)
    (d : gmap string pyval) (f : Z) :
  st !! key = Some (PDict d) →
  d !! "failures" = Some (PInt f) →
  f ≤ 0 →
  Level3.should_alert T key false st = Ok (DFalse, st).
Proof.
  intros Hk Hf Hle. unfold Level3.should_alert, setdefault. rewrite Hk.
  unfold Level3.should_alert_record. simpl. rewrite Hf. simpl.
  replace (0 <? f) with false by (symmetry; apply Z.ltb_ge; lia).
  by rewrite insert_id.
Qed.

Lemma healthy_check_changes_nothing_witness :
  Level3.should_alert 2 "GET:https://a" false
    {[ "GET:https://a" := PDict {[ "failures" := PInt 0 ]} ]}
  = Ok (DFalse, {[ "GET:https://a" := PDict {[ "failures" := PInt 0 ]} ]}).
Proof.
  apply (healthy_check_changes_nothing 2 "GET:https://a" _ {[ "failures" := PInt 0 ]} 0);
    [reflexivity | reflexivity | lia].
Defined.

(** ** The loop of [run] *)

Lemma check_well_formed (T : Z) (M : pyfloat) (server : Server)
    (probe : bool * pyfloat) (st : State) :
  well_formed_store st →
  ∃ sent st', Level3.check T M server probe st = Ok (sent, st')
              ∧ well_formed_store st'.
Proof.
  intros Hwf. destruct probe as [is_up rt]. unfold Level3.check.
  set (b := bool_decide (Level3.classify M is_up rt = DOWN)).
  assert (∃ r, Machine.record_of st (endpoint_key server) r) as [r Hr].
  { unfold Machine.record_of. destruct (st !! endpoint_key server) as [v|] eqn:Hk.
    - exact (Hwf _ _ Hk).
    - by eexists. }
  destruct (should_alert_step T (endpoint_key server) b st r Hr)
    as (st' & -> & Hr' & Hframe).
  eexists _, st'. split; [done|].
  intros k v Hk. destruct (decide (k = endpoint_key server)) as [->|Hne].
  - unfold Machine.record_of in Hr'. rewrite Hk in Hr'. by eexists.
  - rewrite Hframe in Hk by done. exact (Hwf _ _ Hk).
Qed.

Lemma run_well_formed (T : Z) (M : pyfloat)
    (work : list (Server * (bool * pyfloat))) :
  ∀ st : State,
    well_formed_store st →
    ∃ sent st', Level3.run T M work st = Ok (sent, st') ∧ well_formed_store st'.
Proof.
  induction work as [|[server probe] work IH]; intros st Hwf; simpl.
  - by exists [], st.
  - destruct (check_well_formed T M server probe st Hwf) as (sent & st1 & -> & Hwf1).
    destruct (IH st1 Hwf1) as (sent' & st2 & -> & Hwf2).
    by eexists _, st2.
Qed.

(** X6.  On a store in which every record is well formed (the empty store,
    for one), [run] completes for every list of servers and every probe
    outcome, and the store it leaves for [save_state] is again well formed:
    the monitor never corrupts its own state. *)
Theorem run_keeps_store_well_formed (T : Z) (M : pyfloat)
    (work : list (Server * (bool * pyfloat))) (st : State) :
  well_formed_store st →
  ∃ sent st', Level3.run T M work st = Ok (sent, st') ∧ well_formed_store st'.
Proof.
  intros Hwf.
  destruct (run_well_formed T M work st Hwf) as (sent & st' & Hrun & Hwf').
  by exists sent, st'.
Qed.

Lemma run_keeps_store_well_formed_witness :
  ∃ sent st',
    Level3.run 2 (FFin 2)
      [(slow_api, (true, FFin 3)); (failing_api, (false, FFin (1 # 10)))] ∅
    = Ok (sent, st')
    ∧ well_formed_store st'.
Proof.
  apply (run_keeps_store_well_formed 2 (FFin 2)
           [(slow_api, (true, FFin 3)); (failing_api, (false, FFin (1 # 10)))] ∅).
  intros k v Hk. by rewrite lookup_empty in Hk.
Defined.

Lemma dispatch_at_most_one (alert : Decision) (status : HealthStatus) :
  (length (Level3.dispatch alert status) ≤ 1)%nat.
Proof. unfold Level3.dispatch. destruct alert; simpl; try lia. case_decide; simpl; lia. Qed.

Lemma check_sent (T : Z) (M : pyfloat) (server : Server) (probe : bool * pyfloat)
    (st st' : State) (sent : list (string * AlertKind)) :
  Level3.check T M server probe st = Ok (sent, st') →
  (length sent ≤ 1)%nat
  ∧ (∀ a, a ∈ sent → a.1 = name server)
  ∧ dom st' = {[ endpoint_key server ]} ∪ dom st.
Proof.
  destruct probe as [is_up rt]. unfold Level3.check.
  destruct (Level3.should_alert T _ _ st) as [[alert st1]|e] eqn:E; [|done].
  intros [= <- <-]. split; [|split].
  - rewrite length_fmap. apply dispatch_at_most_one.
  - intros a Ha. apply list_elem_of_fmap in Ha as (k & -> & _). done.
  - revert E. unfold Level3.should_alert, setdefault.
    destruct (st !! endpoint_key server) as [v|] eqn:Hk.
    + destruct (Level3.should_alert_record _ _ _) as [[d v']|]; [|done].
      intros [= _ <-]. by rewrite dom_insert_L.
    + destruct (Level3.should_alert_record _ _ _) as [[d v']|]; [|done].
      intros [= _ <-]. rewrite !dom_insert_L. set_solver.
Qed.

(** X7.  Whenever [run] returns, it has sent at most one alert per server
    entry, every alert carries the name of an entry of the list, and the
    store holds the records it held before plus one for every endpoint
    checked: [run] never drops a record, so an endpoint taken out of
    [servers.json] stays in the state file. *)
Theorem run_alerts_and_keys (T : Z) (M : pyfloat)
    (work : list (Server * (bool * pyfloat))) :
  ∀ (st st' : State) (sent : list (string * AlertKind)),
    Level3.run T M work st = Ok (sent, st') →
    (length sent ≤ length work)%nat
    ∧ (∀ a, a ∈ sent → a.1 ∈ (λ w, name w.1) <$> work)
    ∧ dom st' = list_to_set ((λ w, endpoint_key w.1) <$> work) ∪ dom st.
Proof.
  induction work as [|[server probe] work IH]; intros st st' sent; simpl.
  - intros [= <- <-]. split; [done|]. split; [|set_solver].
    intros a Ha. by apply elem_of_nil in Ha.
  - destruct (Level3.check T M server probe st) as [[sent1 st1]|] eqn:E1; [|done].
    destruct (Level3.run T M work st1) as [[sent2 st2]|] eqn:E2; [|done].
    intros [= <- <-].
    destruct (check_sent _ _ _ _ _ _ _ E1) as (Hl1 & Hn1 & Hd1).
    destruct (IH _ _ _ E2) as (Hl2 & Hn2 & Hd2).
    split; [|split].
    + rewrite length_app. lia.
    + intros a Ha. apply elem_of_app in Ha as [Ha|Ha].
      * rewrite (Hn1 a Ha). apply list_elem_of_here.
      * apply list_elem_of_further. by apply Hn2.
    + rewrite Hd2, Hd1. set_solver.
Qed.

Lemma run_alerts_and_keys_witness :
  (length [("Slow API", AlertSlow); ("Failing API", AlertDown)] ≤ 2)%nat
  ∧ (∀ a, a ∈ [("Slow API", AlertSlow); ("Failing API", AlertDown)] →
       a.1 ∈ (λ w : Server * (bool * pyfloat), name w.1)
             <$> [(slow_api, (true, FFin 3)); (failing_api, (false, FFin (1 # 10)))])
  ∧ dom ({[ "GET:https://httpbin.org/delay/3" := record_dict 0 false;
            "GET:https://httpbin.org/status/500" := record_dict 2 true ]} : State)
    = list_to_set ((λ w : Server * (bool * pyfloat), endpoint_key w.1)
                   <$> [(slow_api, (true, FFin 3)); (failing_api, (false, FFin (1 # 10)))])
      ∪ dom ({[ "GET:https://httpbin.org/status/500" := record_dict 1 false ]} : State).
Proof.
  apply (run_alerts_and_keys 2 (FFin 2)
           [(slow_api, (true, FFin 3)); (failing_api, (false, FFin (1 # 10)))]
           {[ "GET:https://httpbin.org/status/500" := record_dict 1 false ]}).
  vm_compute. reflexivity.
Defined.

(** ** Checks of different endpoints *)

(** [should_alert] reads and writes the record of its key only. *)
Lemma should_alert_local (T : Z) (key : string) (is_down : bool) (st : State) :
  Level3.should_alert T key is_down st
  = match Level3.should_alert_record T is_down
            (default Level3.fresh_record (st !! key)) with
    | Ok (d, v) => Ok (d, <[key := v]> st)
    | Raise e => Raise e
    end.
Proof.
  unfold Level3.should_alert, setdefault.
  destruct (st !! key) as [v|]; simpl; [done|].
  destruct (Level3.should_alert_record _ _ _) as [[d v]|]; [|done].
  by rewrite insert_insert_eq.
Qed.

Lemma check_local (T : Z) (M : pyfloat) (server : Server) (probe : bool * pyfloat)
    (st : State) :
  Level3.check T M server probe st
  = match Level3.should_alert_record T
            (bool_decide (Level3.classify M probe.1 probe.2 = DOWN))
            (default Level3.fresh_record (st !! endpoint_key server)) with
    | Ok (d, v) =>
        Ok ((λ k, (name server, k))
              <$> Level3.dispatch d (Level3.classify M probe.1 probe.2),
            <[endpoint_key server := v]> st)
    | Raise e => Raise e
    end.
Proof.
  destruct probe as [is_up rt]. unfold Level3.check. rewrite should_alert_local.
  simpl. by destruct (Level3.should_alert_record _ _ _) as [[d v]|].
Qed.

(** X8.  Checks of two endpoints with different keys commute: done in either
    order they send the same alerts and leave the same store, so the order of
    [servers.json] does not matter to the state. *)
Theorem checks_commute (T : Z) (M : pyfloat) (s1 s2 : Server)
    (p1 p2 : bool * pyfloat) (st st1 st2 : State)
    (sent1 sent2 : list (string * AlertKind)) :
  endpoint_key s1 ≠ endpoint_key s2 →
  Level3.check T M s1 p1 st = Ok (sent1, st1) →
  Level3.check T M s2 p2 st1 = Ok (sent2, st2) →
  ∃ st1',
    Level3.check T M s2 p2 st = Ok (sent2, st1')
    ∧ Level3.check T M s1 p1 st1' = Ok (sent1, st2).
Proof.
  intros Hne. rewrite !check_local.
  destruct (Level3.should_alert_record T _ (default _ (st !! endpoint_key s1)))
    as [[d1 v1]|] eqn:E1; [|done].
  intros [= <- <-]. rewrite lookup_insert_ne by done.
  destruct (Level3.should_alert_record T _ (default _ (st !! endpoint_key s2)))
    as [[d2 v2]|] eqn:E2; [|done].
  intros [= <- <-]. eexists. split; [done|].
  rewrite check_local, lookup_insert_ne by done. rewrite E1.
  by rewrite insert_insert_ne.
Qed.

Lemma checks_commute_witness :
  ∃ st1',
    Level3.check 2 (FFin 2) failing_api (false, FFin (1 # 10))
      {[ "GET:https://httpbin.org/status/500" := record_dict 1 false ]}
    = Ok ([("Failing API", AlertDown)], st1')
    ∧ Level3.check 2 (FFin 2) slow_api (true, FFin 3) st1'
      = Ok ([("Slow API", AlertSlow)],
            {[ "GET:https://httpbin.org/delay/3" := record_dict 0 false;
               "GET:https://httpbin.org/status/500" := record_dict 2 true ]}).
Proof.
  apply (checks_commute 2 (FFin 2) slow_api failing_api
           (true, FFin 3) (false, FFin (1 # 10))
           {[ "GET:https://httpbin.org/status/500" := record_dict 1 false ]}
           {[ "GET:https://httpbin.org/delay/3" := record_dict 0 false;
              "GET:https://httpbin.org/status/500" := record_dict 1 false ]}).
  - vm_compute. discriminate.
  - vm_compute. reflexivity.
  - vm_compute. reflexivity.
Defined.

(** ** Runs and restarts *)

Lemma run_app (T : Z) (M : pyfloat) (w1 w2 : list (Server * (bool * pyfloat))) :
  ∀ st,
    Level3.run T M (w1 ++ w2) st
    = match Level3.run T M w1 st with
      | Ok (sent1, st1) =>
          match Level3.run T M w2 st1 with
          | Ok (sent2, st2) => Ok (sent1 ++ sent2, st2)
          | Raise e => Raise e
          end
      | Raise e => Raise e
      end.
Proof.
  induction w1 as [|[server probe] w1 IH]; intros st; simpl.
  - by destruct (Level3.run T M w2 st) as [[sent2 st2]|].
  - destruct (Level3.check T M server probe st) as [[sent0 st0]|]; [|done].
    rewrite IH. destruct (Level3.run T M w1 st0) as [[sent1 st1]|]; [|done].
    destruct (Level3.run T M w2 st1) as [[sent2 st2]|]; [|done].
    by rewrite app_assoc.
Qed.

(** X9.  The state survives a restart: two processes run one after the
    other, the second starting from the state file the first one wrote, send
    the alerts and leave the state file that a single process would over the
    two lists of checks in a row. *)
Theorem restart_is_transparent (T : Z) (M : pyfloat)
    (w1 w2 : list (Server * (bool * pyfloat))) (file file1 file2 : backing)
    (sent1 sent2 : list (string * AlertKind)) :
  Level3Main.main T M w1 file = Ok (sent1, file1) →
  Level3Main.main T M w2 file1 = Ok (sent2, file2) →
  Level3Main.main T M (w1 ++ w2) file = Ok (sent1 ++ sent2, file2).
Proof.
  unfold Level3Main.main.
  destruct (Level3.load_state file) as [st|]; [|done].
  rewrite run_app.
  destruct (Level3.run T M w1 st) as [[s1 st1]|]; [|done].
  intros [= <- <-]. simpl.
  destruct (Level3.run T M w2 st1) as [[s2 st2]|]; [|done].
  by intros [= <- <-].
Qed.

Lemma restart_is_transparent_witness :
  Level3Main.main 2 (FFin 2)
    ([(failing_api, (false, FFin (1 # 10)))] ++ [(failing_api, (false, FFin (1 # 10)))])
    None
  = Ok ([] ++ [("Failing API", AlertDown)],
        Some (JsonObject {[ "GET:https://httpbin.org/status/500" := record_dict 2 true ]})).
Proof.
  apply (restart_is_transparent 2 (FFin 2)
           [(failing_api, (false, FFin (1 # 10)))]
           [(failing_api, (false, FFin (1 # 10)))]
           None
           (Some (JsonObject {[ "GET:https://httpbin.org/status/500" := record_dict 1 false ]})));
    vm_compute; reflexivity.
Defined.

(** X10.  Started on an absent state file, on one that is not JSON, or on one
    holding well-formed records only, the process completes whatever the
    servers and the probe outcomes are, and the state file it writes holds
    well-formed records only. *)
Theorem main_completes (T : Z) (M : pyfloat)
    (work : list (Server * (bool * pyfloat))) (file : backing) :
  file = None ∨ file = Some NotJson
  ∨ (∃ m, file = Some (JsonObject m) ∧ well_formed_store m) →
  ∃ sent m',
    Level3Main.main T M work file = Ok (sent, Some (JsonObject m'))
    ∧ well_formed_store m'.
Proof.
  intros Hfile. unfold Level3Main.main.
  assert (∃ st, Level3.load_state file = Ok st ∧ well_formed_store st)
    as (st & -> & Hwf).
  { destruct Hfile as [->|[->|(m & -> & Hm)]]; simpl.
    - exists ∅. split; [done|]. intros k v Hk. by rewrite lookup_empty in Hk.
    - exists ∅. split; [done|]. intros k v Hk. by rewrite lookup_empty in Hk.
    - by exists m. }
  destruct (run_well_formed T M work st Hwf) as (sent & st' & -> & Hwf').
  by exists sent, st'.
Qed.

Lemma main_completes_witness :
  ∃ sent m',
    Level3Main.main 2 (FFin 2) [(slow_api, (true, FFin 3))] (Some NotJson)
    = Ok (sent, Some (JsonObject m'))
    ∧ well_formed_store m'.
Proof.
  apply (main_completes 2 (FFin 2) [(slow_api, (true, FFin 3))] (Some NotJson)).
  right. left. reflexivity.
Defined.

Lemma run_raises_on_malformed (T : Z) (M : pyfloat) (server : Server)
    (work : list (Server * (bool * pyfloat))) :
  ∀ (st : State) (d : gmap string pyval),
    server ∈ work.*1 →
    st !! endpoint_key server = Some (PDict d) →
    d !! "failures" = None →
    ∃ e, Level3.run T M work st = Raise e.
Proof.
  induction work as [|[s0 p0] work IH]; intros st d Hin Hk Hd; simpl in *.
  - by apply elem_of_nil in Hin.
  - destruct (decide (endpoint_key s0 = endpoint_key server)) as [Heq|Hne].
    + rewrite check_local, Heq, Hk. simpl.
      unfold Level3.should_alert_record.
      destruct (bool_decide _); simpl; rewrite Hd; by eexists.
    + apply elem_of_cons in Hin as [->|Hin]; [done|].
      rewrite check_local.
      destruct (Level3.should_alert_record _ _ _) as [[d0 v0]|e]; [|by eexists].
      destruct (IH (<[endpoint_key s0 := v0]> st) d Hin) as [e He];
        [by rewrite lookup_insert_ne | done |].
      rewrite He. by eexists.
Qed.

(** X11.  No self-healing: if the state file holds, for one of the servers
    to check, a record dict without ["failures"] (as a state file written by
    Level 1 does), the process raises and never reaches [save_state], so the
    file stays as it is and every later run fails the same way. *)
Theorem main_raises_on_malformed_record (T : Z) (M : pyfloat) (server : Server)
    (work : list (Server * (bool * pyfloat))) (m : State) (d : gmap string pyval) :
  server ∈ work.*1 →
  m !! endpoint_key server = Some (PDict d) →
  d !! "failures" = None →
  ∃ e, Level3Main.main T M work (Some (JsonObject m)) = Raise e.
Proof.
  intros Hin Hk Hd. unfold Level3Main.main. simpl.
  destruct (run_raises_on_malformed T M server work m d Hin Hk Hd) as [e ->].
  by exists e.
Qed.

Lemma main_raises_on_malformed_record_witness :
  ∃ e,
    Level3Main.main 2 (FFin 2)
      [(slow_api, (true, FFin 3)); (failing_api, (false, FFin (1 # 10)))]
      (Some (JsonObject {[ "GET:https://httpbin.org/status/500" := level1_record_dict ]}))
    = Raise e.
Proof.
  apply (main_raises_on_malformed_record 2 (FFin 2) failing_api _ _
           {[ "consecutive_failures" := PInt 0;
              "last_alert_sent" := PNone;
              "last_status" := PStr "UP";
              "last_check" := PStr "2024-01-01T00:00:00.000000" ]}).
  - apply list_elem_of_further, list_elem_of_here.
  - vm_compute. reflexivity.
  - reflexivity.
Defined.

(** ** The loop of [run] in Level 1 *)

Section Level1Loop.
Import Machine.
Variable T : Z.

Lemma should_alert_L1_stored (url : string) (is_down : bool) (now : string)
    (st : State) (r : EndpointRecord) :
  now ≠ "" →
  record_of_L1 st url r →
  ∃ st' v,
    Level1.should_alert T url is_down now st = Ok ((step_L1 T r is_down).1, st')
    ∧ st' !! url = Some v
    ∧ represents_L1 v (step_L1 T r is_down).2.
Proof.
  intros Hnow Hr.
  destruct (should_alert_step_L1 T url is_down now st r Hnow Hr) as (st' & Hs & Hr').
  exists st'. revert Hr'. unfold record_of_L1.
  destruct (st' !! url) as [v|] eqn:Hk.
  - intros Hv. by exists v.
  - exfalso. revert Hs Hk. unfold Level1.should_alert.
    destruct (_ !! url) as [rec|]; [|done].
    destruct (Level1.should_alert_record _ _ _ _) as [[b rec']|]; [|done].
    intros [= _ <-]. by rewrite lookup_insert_eq.
Qed.

(** One iteration on a well-formed (or absent) record: the alert follows the
    transition of the record, and the two informational fields are written
    beside the counter. *)
Lemma check_L1_step (url : string) (is_up : bool) (now_alert now_check : string)
    (st : State) (r : EndpointRecord) :
  now_alert ≠ "" →
  record_of_L1 st url r →
  ∃ st' d,
    Level1Run.check T url is_up now_alert now_check st
    = Ok (if (step_L1 T r (negb is_up)).1 then [url] else [], st')
    ∧ st' !! url = Some (PDict d)
    ∧ represents_L1 (PDict d) (step_L1 T r (negb is_up)).2
    ∧ d !! "last_status" = Some (PStr (if is_up then "UP" else "DOWN"))
    ∧ d !! "last_check" = Some (PStr now_check).
Proof.
  intros Hnow Hr. unfold Level1Run.check.
  destruct (should_alert_L1_stored url (negb is_up) now_alert st r Hnow Hr)
    as (st1 & v & -> & Hk & Hv).
  rewrite Hk. destruct Hv as (d & a & -> & Hf & Ha & Htr). simpl.
  eexists _, _. split; [done|]. rewrite lookup_insert_eq. split; [done|].
  split; [|split].
  - exists (<["last_check" := PStr now_check]>
              (<["last_status" := PStr (if is_up then "UP" else "DOWN")]> d)), a.
    split; [done|]. by rewrite !lookup_insert_ne.
  - by rewrite lookup_insert_ne, lookup_insert_eq.
  - by rewrite lookup_insert_eq.
Qed.
End Level1Loop.

(** X12.  In Level 1, after an iteration of [run] on a well-formed (or
    absent) record whose counter is not negative, ["last_status"] is ["UP"]
    or ["DOWN"] as the probe said, ["last_check"] is the clock reading, and
    the stored counter is 0 exactly when the status is ["UP"]. *)
Theorem level1_status_matches_counter (T : Z) (url : string) (is_up : bool)
    (now_alert now_check : string) (st : State) (r : Machine.EndpointRecord) :
  now_alert ≠ "" →
  Machine.record_of_L1 st url r →
  0 ≤ Machine.consecutive_failures r →
  ∃ sent st' d f,
    Level1Run.check T url is_up now_alert now_check st = Ok (sent, st')
    ∧ st' !! url = Some (PDict d)
    ∧ d !! "last_status" = Some (PStr (if is_up then "UP" else "DOWN"))
    ∧ d !! "last_check" = Some (PStr now_check)
    ∧ d !! "consecutive_failures" = Some (PInt f)
    ∧ (f = 0 ↔ is_up = true).
Proof.
  intros Hnow Hr Hpos.
  destruct (check_L1_step T url is_up now_alert now_check st r Hnow Hr)
    as (st' & d & Hc & Hk & Hv & Hs & Hl).
  destruct Hv as (d' & a & [= <-] & Hf & _).
  eexists _, st', d, _. repeat (split; [done|]).
  destruct r as [f al]; simpl in *. unfold Machine.step_L1.
  destruct is_up; simpl.
  - done.
  - destruct ((T <=? f + 1) && negb al); simpl; split; (lia || done).
Qed.

Lemma level1_status_matches_counter_witness :
  ∃ sent st' d f,
    Level1Run.check 2 "https://example.com" false
      "2024-01-01T00:00:00" "2024-01-01T00:00:01" ∅
    = Ok (sent, st')
    ∧ st' !! "https://example.com" = Some (PDict d)
    ∧ d !! "last_status" = Some (PStr "DOWN")
    ∧ d !! "last_check" = Some (PStr "2024-01-01T00:00:01")
    ∧ d !! "consecutive_failures" = Some (PInt f)
    ∧ (f = 0 ↔ false = true).
Proof.
  apply (level1_status_matches_counter 2 "https://example.com" false
           "2024-01-01T00:00:00" "2024-01-01T00:00:01" ∅ Machine.fresh);
    [discriminate | reflexivity | reflexivity].
Defined.

(** ** Level 1 and Level 3, run against run *)

Lemma sent_down_iff (server : Server) (d : Decision) (status : HealthStatus) :
  bool_decide ((name server, AlertDown)
               ∈ (λ k, (name server, k)) <$> Level3.dispatch d status)
  = bool_decide (d = DTrue).
Proof.
  apply bool_decide_ext. unfold Level3.dispatch.
  destruct d; simpl.
  - split; [done|]. intros _. apply list_elem_of_here.
  - case_decide; simpl; split; try done.
    + intros Hin. apply list_elem_of_singleton in Hin. done.
    + intros Hin. by apply elem_of_nil in Hin.
  - split; [|done]. intros Hin. apply list_elem_of_singleton in Hin. done.
Qed.

Lemma runs_agree (T : Z) (M : pyfloat) (url : string) (server : Server)
    (probes : list (bool * pyfloat * (string * string))) :
  ∀ (st1 st3 : State) (r : Machine.EndpointRecord),
    Forall (λ p, p.2.1 ≠ "") probes →
    Machine.reachable_inv r →
    Machine.record_of_L1 st1 url r →
    Machine.record_of st3 (endpoint_key server) r →
    ∃ sents1 st1' sents3 st3',
      Level1Run.check_seq T url ((λ p, (p.1.1, p.2)) <$> probes) st1
      = Ok (sents1, st1')
      ∧ check_seq_level3 T M server ((λ p, p.1) <$> probes) st3 = Ok (sents3, st3')
      ∧ (λ s, bool_decide (s = [url])) <$> sents1
        = (λ s, bool_decide ((name server, AlertDown) ∈ s)) <$> sents3.
Proof.
  induction probes as [|[[is_up rt] [na nc]] probes IH];
    intros st1 st3 r Hnow Hinv Hr1 Hr3.
  - by exists [], st1, [], st3.
  - rewrite !fmap_cons. cbn [Level1Run.check_seq check_seq_level3 fst snd].
    apply Forall_cons in Hnow as [Hna Hrest]. cbn [fst snd] in Hna.
    destruct (check_L1_step T url is_up na nc st1 r Hna Hr1)
      as (st1' & d & -> & Hk & Hv & _).
    assert (Level3.classify M is_up rt = DOWN ↔ is_up = false) as Hdown.
    { unfold Level3.classify. destruct is_up; simpl; [|done].
      by destruct (float_gt rt M). }
    assert (bool_decide (Level3.classify M is_up rt = DOWN) = negb is_up) as Hb.
    { destruct is_up; [apply bool_decide_eq_false_2|apply bool_decide_eq_true_2];
        rewrite Hdown; done. }
    unfold Level3.check. rewrite Hb.
    destruct (should_alert_step T (endpoint_key server) (negb is_up) st3 r Hr3)
      as (st3' & -> & Hr3' & _).
    rewrite (step_L1_step T r (negb is_up) Hinv) in *. cbn [fst snd] in *.
    pose proof (step_inv T r (negb is_up) Hinv) as Hinv'.
    destruct (Machine.step T r (negb is_up)) as [dec r']; cbn [fst snd] in *.
    destruct (IH st1' st3' r' Hrest Hinv') as (sents1 & st1'' & sents3 & st3'' & H1 & H3 & Heq).
    { unfold Machine.record_of_L1. by rewrite Hk. }
    { done. }
    rewrite H1, H3. eexists _, st1'', _, st3''. split; [done|]. split; [done|].
    rewrite !fmap_cons, Heq, sent_down_iff. f_equal.
    destruct (bool_decide (dec = DTrue)).
    + by rewrite bool_decide_eq_true_2.
    + by rewrite bool_decide_eq_false_2.
Qed.

(** X13.  Run against run, from an empty state and at a common threshold:
    over any sequence of probe outcomes of one endpoint, both levels complete
    every check, and Level 1 calls [send_alert] on exactly the checks on which
    Level 3 sends a DOWN alert, whatever the response times are. *)
Theorem level1_run_alerts_where_level3_sends_down (T : Z) (M : pyfloat)
    (url : string) (server : Server)
    (probes : list (bool * pyfloat * (string * string))) :
  Forall (λ p, p.2.1 ≠ "") probes →
  ∃ sents1 st1 sents3 st3,
    Level1Run.check_seq T url ((λ p, (p.1.1, p.2)) <$> probes) ∅ = Ok (sents1, st1)
    ∧ check_seq_level3 T M server ((λ p, p.1) <$> probes) ∅ = Ok (sents3, st3)
    ∧ (λ s, bool_decide (s = [url])) <$> sents1
      = (λ s, bool_decide ((name server, AlertDown) ∈ s)) <$> sents3.
Proof.
  intros Hnow. by apply (runs_agree T M url server probes ∅ ∅ Machine.fresh).
Qed.

Lemma level1_run_alerts_where_level3_sends_down_witness :
  ∃ sents1 st1 sents3 st3,
    Level1Run.check_seq 2 "https://example.com"
      ((λ p : bool * pyfloat * (string * string), (p.1.1, p.2))
       <$> [(false, FFin 1, ("t1", "t2")); (false, FFin 1, ("t3", "t4"));
            (true, FFin 3, ("t5", "t6"))]) ∅
    = Ok (sents1, st1)
    ∧ check_seq_level3 2 (FFin 2) (mkServer "Example" "https://example.com" "GET")
        ((λ p : bool * pyfloat * (string * string), p.1)
         <$> [(false, FFin 1, ("t1", "t2")); (false, FFin 1, ("t3", "t4"));
              (true, FFin 3, ("t5", "t6"))]) ∅
      = Ok (sents3, st3)
    ∧ (λ s, bool_decide (s = ["https://example.com"])) <$> sents1
      = (λ s, bool_decide (("Example", AlertDown) ∈ s)) <$> sents3.
Proof.
  apply (level1_run_alerts_where_level3_sends_down 2 (FFin 2) "https://example.com"
           (mkServer "Example" "https://example.com" "GET")
           [(false, FFin 1, ("t1", "t2")); (false, FFin 1, ("t3", "t4"));
            (true, FFin 3, ("t5", "t6"))]).
  repeat constructor; discriminate.
Defined.

(** ** The server list of Level 1 *)

Section ServerList.
Import Level1Servers.

Lemma lstrip_split (s : list ascii) :
  ∃ ws, s = ws ++ lstrip s ∧ Forall (λ c, is_space c = true) ws.
Proof.
  induction s as [|c s (ws & IH & Hws)]; simpl.
  - by exists [].
  - destruct (is_space c) eqn:E.
    + exists (c :: ws). split; [by rewrite IH at 1|]. by constructor.
    + by exists [].
Qed.

Lemma lstrip_head (s : list ascii) :
  lstrip s = [] ∨ ∃ c t, lstrip s = c :: t ∧ is_space c = false.
Proof.
  induction s as [|c s IH]; simpl; [by left|].
  destruct (is_space c) eqn:E; [done|]. right. by exists c, s.
Qed.

Lemma rstrip_snoc_space (t : list ascii) (c : ascii) :
  is_space c = true → rstrip (t ++ [c]) = rstrip t.
Proof. intros E. unfold rstrip. rewrite reverse_app. simpl. by rewrite E. Qed.

Lemma rstrip_snoc_other (t : list ascii) (c : ascii) :
  is_space c = false → rstrip (t ++ [c]) = t ++ [c].
Proof.
  intros E. unfold rstrip. rewrite reverse_app. simpl. rewrite E.
  change (c :: reverse t) with ([c] ++ reverse t).
  by rewrite reverse_app, reverse_involutive.
Qed.

Lemma rstrip_split (s : list ascii) :
  ∃ ws, s = rstrip s ++ ws ∧ Forall (λ c, is_space c = true) ws.
Proof.
  unfold rstrip. destruct (lstrip_split (reverse s)) as (ws & Hs & Hws).
  exists (reverse ws). split.
  - rewrite <- reverse_app, <- Hs. by rewrite reverse_involutive.
  - by apply Forall_reverse.
Qed.

Lemma rstrip_last (s : list ascii) :
  rstrip s = [] ∨ ∃ t c, rstrip s = t ++ [c] ∧ is_space c = false.
Proof.
  unfold rstrip. destruct (lstrip_head (reverse s)) as [->|(c & t & -> & E)].
  - by left.
  - right. exists (reverse t), c. by rewrite reverse_cons.
Qed.

Lemma strip_ends (s : list ascii) : strip s = [] ∨ ends_clean (strip s).
Proof.
  unfold strip. destruct (lstrip_head s) as [->|(c & t & -> & Hc)]; [by left|].
  destruct (rstrip_split (c :: t)) as (ws & Hs & Hws).
  destruct (rstrip_last (c :: t)) as [E|(u & c2 & E & Hc2)].
  - rewrite E in Hs. simpl in Hs. subst ws.
    apply Forall_cons in Hws as [Hc' _]. congruence.
  - right. split; [|by exists u, c2].
    rewrite E in Hs |- *. destruct u as [|c' u]; simpl in *.
    + injection Hs as -> _. by exists c2, [].
    + injection Hs as -> _. by exists c', (u ++ [c2]).
Qed.

Lemma ends_clean_strip (s : list ascii) : ends_clean s → strip s = s.
Proof.
  intros [(c & t & -> & Hc) (u & c2 & E & Hc2)]. unfold strip. simpl.
  rewrite Hc, E. by apply rstrip_snoc_other.
Qed.

Lemma trimmed_ends_clean (s : list ascii) : trimmed s ↔ ends_clean s.
Proof.
  split.
  - intros [Hne Hs]. destruct (strip_ends s) as [E|E]; rewrite Hs in E; done.
  - intros H. split; [|by apply ends_clean_strip].
    by destruct H as [(c & t & -> & _) _].
Qed.

Lemma strip_snoc_LF (e : list ascii) : ends_clean e → strip (e ++ [LF]) = e.
Proof.
  intros [(c & t & -> & Hc) (u & c2 & E & Hc2)]. unfold strip. simpl.
  rewrite Hc. change (c :: t ++ [LF]) with ((c :: t) ++ [LF]).
  rewrite rstrip_snoc_space by done. rewrite E. by apply rstrip_snoc_other.
Qed.

Lemma lines_from_one_line (s : list ascii) :
  ∀ cur, LF ∉ cur → Forall one_line (lines_from cur s).
Proof.
  induction s as [|c s IH]; intros cur Hcur; simpl.
  - destruct cur as [|c' cur']; [constructor|].
    constructor; [|constructor]. exists (reverse (c' :: cur')).
    split; [|by right]. by rewrite elem_of_reverse.
  - case_decide as Hc.
    + subst c. constructor.
      * exists (reverse cur). split; [by rewrite elem_of_reverse|].
        left. by rewrite reverse_cons.
      * apply IH. apply not_elem_of_nil.
    + apply IH. rewrite not_elem_of_cons. split; [congruence|done].
Qed.

Lemma single_line_end (body p q : list ascii) :
  LF ∉ body → body ++ [LF] = p ++ LF :: q → q = [].
Proof.
  revert p. induction body as [|b body IH]; intros p Hb E; simpl in *.
  - destruct p as [|a p]; simpl in *; [by injection E|].
    injection E as _ E. by destruct p.
  - apply not_elem_of_cons in Hb as [Hne Hb].
    destruct p as [|a p]; simpl in *; injection E as E1 E2; [congruence|].
    by apply (IH p).
Qed.

Lemma strip_one_line (l : list ascii) : one_line l → LF ∉ strip l.
Proof.
  intros (body & Hbody & Hl) Hin.
  destruct (strip_ends l) as [E|[_ (u & c2 & E & Hc2)]].
  { rewrite E in Hin. by apply elem_of_nil in Hin. }
  destruct (lstrip_split l) as (ws1 & Hl1 & _).
  destruct (rstrip_split (lstrip l)) as (ws2 & Hl2 & _).
  fold (strip l) in Hl2. rewrite E in Hin, Hl2.
  apply elem_of_app in Hin as [Hin|Hin].
  - apply list_elem_of_split in Hin as (u1 & u2 & ->).
    assert (l = (ws1 ++ u1) ++ LF :: (u2 ++ [c2] ++ ws2)) as Hsplit.
    { rewrite Hl1 at 1. rewrite Hl2. by rewrite <- !app_assoc. }
    destruct Hl as [Hl|Hl].
    + rewrite Hl in Hsplit. apply single_line_end in Hsplit; [|done].
      by destruct u2.
    + apply Hbody. rewrite <- Hl, Hsplit. set_solver.
  - apply list_elem_of_singleton in Hin. subst c2. done.
Qed.

(** X14.  Every entry [load_servers] of Level 1 returns from an existing
    [servers.txt] is a non-empty string without whitespace at either end and
    without a line feed, and there are no more entries than lines: blank
    lines and lines of whitespace are skipped. *)
Theorem load_servers_entries (text : list ascii) :
  (∀ e, e ∈ (load_servers (Some text)).1 → e ≠ [] ∧ strip e = e ∧ (LF ∉ e))
  ∧ (length (load_servers (Some text)).1 ≤ length (file_lines text))%nat.
Proof.
  simpl. split.
  - intros e He. apply list_elem_of_fmap in He as (l & -> & Hl).
    apply list_elem_of_filter in Hl as [Hne Hl].
    destruct (strip_ends l) as [E|E]; [done|].
    split; [done|]. split; [by apply ends_clean_strip|].
    apply strip_one_line.
    pose proof (lines_from_one_line (universal_newlines text) [] (not_elem_of_nil _)) as HF.
    rewrite Forall_forall in HF. by apply HF.
  - rewrite length_fmap. apply length_filter.
Qed.

Lemma load_servers_entries_witness :
  String.list_ascii_of_string "http://a" ≠ []
  ∧ strip (String.list_ascii_of_string "http://a") = String.list_ascii_of_string "http://a"
  ∧ (LF ∉ String.list_ascii_of_string "http://a").
Proof.
  destruct (load_servers_entries
              (String.list_ascii_of_string "  http://a " ++ [CR; LF; LF]
               ++ String.list_ascii_of_string "http://b")) as [H _].
  apply H.
  assert ((load_servers
             (Some (String.list_ascii_of_string "  http://a " ++ [CR; LF; LF]
                    ++ String.list_ascii_of_string "http://b"))).1
          = [String.list_ascii_of_string "http://a";
             String.list_ascii_of_string "http://b"]) as ->
    by (vm_compute; reflexivity).
  apply list_elem_of_here.
Defined.

Lemma universal_newlines_id (s : list ascii) : CR ∉ s → universal_newlines s = s.
Proof.
  induction s as [|c s IH]; intros Hs; simpl; [done|].
  apply not_elem_of_cons in Hs as [Hne Hs].
  rewrite decide_False by congruence. by rewrite IH.
Qed.

Lemma lines_from_app (e rest : list ascii) :
  ∀ cur, LF ∉ e → lines_from cur (e ++ rest) = lines_from (reverse e ++ cur) rest.
Proof.
  induction e as [|c e IH]; intros cur He; simpl; [done|].
  apply not_elem_of_cons in He as [Hne He].
  rewrite decide_False by congruence. rewrite IH by done.
  by rewrite reverse_cons, <- app_assoc.
Qed.

Lemma join_no_CR (entries : list (list ascii)) :
  Forall (λ e, CR ∉ e) entries → CR ∉ join [LF] entries.
Proof.
  induction entries as [|e entries IH]; intros H; simpl.
  - apply not_elem_of_nil.
  - apply Forall_cons in H as [He H]. destruct entries as [|e' entries]; [done|].
    rewrite not_elem_of_app. split; [done|].
    rewrite not_elem_of_cons. split; [done|by apply IH].
Qed.

Lemma lines_of_join (entries : list (list ascii)) :
  Forall (λ e, ends_clean e ∧ (LF ∉ e)) entries →
  strip <$> filter (λ line, strip line ≠ []) (lines_from [] (join [LF] entries))
  = entries.
Proof.
  induction entries as [|e entries IH]; intros H; [done|].
  apply Forall_cons in H as [[He HLF] H].
  assert (e ≠ []) as Hne by (by destruct He as [(c & t & -> & _) _]).
  destruct entries as [|e' entries].
  - simpl. rewrite <- (app_nil_r e) at 1. rewrite lines_from_app by done.
    simpl. rewrite app_nil_r.
    destruct (reverse e) as [|c r] eqn:Er.
    { apply (f_equal reverse) in Er. rewrite reverse_involutive in Er. done. }
    rewrite <- Er, reverse_involutive.
    rewrite filter_cons_True by (by rewrite ends_clean_strip).
    simpl. by rewrite ends_clean_strip.
  - change (join [LF] (e :: e' :: entries))
      with (e ++ LF :: join [LF] (e' :: entries)).
    rewrite lines_from_app by done. simpl lines_from at 1.
    rewrite app_nil_r, reverse_cons, reverse_involutive.
    rewrite filter_cons_True by (by rewrite strip_snoc_LF).
    rewrite fmap_cons, strip_snoc_LF by done. f_equal. by apply IH.
Qed.

(** X15.  Round trip of the server list: for entries that are non-empty,
    without whitespace at either end and without line breaks inside,
    [load_servers] reads the file holding [chr(10).join(entries)] back as
    exactly those entries, in order, and leaves the file alone.  The list
    the bootstrap writes is such a list. *)
Theorem load_servers_join (entries : list (list ascii)) :
  Forall (λ e, trimmed e ∧ (LF ∉ e) ∧ (CR ∉ e)) entries →
  load_servers (Some (join [LF] entries)) = (entries, Some (join [LF] entries)).
Proof.
  intros H. unfold load_servers, file_lines. f_equal.
  rewrite universal_newlines_id.
  - apply lines_of_join. eapply Forall_impl; [exact H|].
    intros e (Ht & HLF & _). split; [by apply trimmed_ends_clean|done].
  - apply join_no_CR. eapply Forall_impl; [exact H|]. by intros e (_ & _ & HCR).
Qed.

Lemma load_servers_join_witness :
  load_servers (load_servers None).2 = (example_servers, (load_servers None).2).
Proof.
  apply (load_servers_join example_servers).
  repeat constructor; try done;
    apply (bool_decide_unpack _); vm_compute; exact I.
Defined.
End ServerList.

(** ** Probing, and incomplete entries of [servers.json] *)

Section Entries.
Import Level3Entries.
Variable T : Z.
Variable M : pyfloat.

Lemma check_entry_complete (server : gmap string string) (outcome : http_outcome)
    (response_time : pyfloat) (st : State) :
  well_formed_store st →
  complete_entry server →
  ∃ sent st', check_entry T M server outcome response_time st = Ok (sent, st')
              ∧ well_formed_store st'.
Proof.
  intros Hwf ([m Hm] & [u Hu] & [n Hn]). unfold check_entry.
  rewrite Hm, Hu, Hn. by apply check_well_formed.
Qed.

Lemma check_entry_ok (server : gmap string string) (outcome : http_outcome)
    (response_time : pyfloat) (st st' : State) (sent : list (string * AlertKind)) :
  check_entry T M server outcome response_time st = Ok (sent, st') → complete_entry server.
Proof.
  unfold check_entry, complete_entry.
  destruct (server !! "method"); [|done].
  destruct (server !! "url"); [|done].
  destruct (server !! "name"); [|done]. by intros _.
Qed.
End Entries.

(** X17.  From a store of well-formed records, the loop of [run] over the
    entries of [servers.json] completes if and only if every entry has the
    keys ["method"], ["url"] and ["name"]: a missing ["method"] is not read
    as GET, it makes the run raise [KeyError] before [save_state]. *)
Theorem run_entries_completes_iff (T : Z) (M : pyfloat)
    (work : list (gmap string string * (http_outcome * pyfloat))) :
  ∀ st : State,
    well_formed_store st →
    (Forall (λ w, Level3Entries.complete_entry w.1) work
     ↔ ∃ sent st', Level3Entries.run_entries T M work st = Ok (sent, st')).
Proof.
  induction work as [|[server [outcome response_time]] work IH]; intros st Hwf; simpl.
  - split; [by eexists _, _ | constructor].
  - split.
    + intros H. apply Forall_cons in H as [Hc H]. simpl in Hc.
      destruct (check_entry_complete T M server outcome response_time st Hwf Hc)
        as (sent & st1 & -> & Hwf1).
      apply (IH st1 Hwf1) in H as (sent' & st2 & ->). by eexists _, _.
    + intros (sent & st' & H).
      destruct (Level3Entries.check_entry T M server outcome response_time st)
        as [[sent1 st1]|] eqn:E1; [|done].
      pose proof (check_entry_ok T M _ _ _ _ _ _ E1) as Hc.
      destruct (check_entry_complete T M server outcome response_time st Hwf Hc)
        as (sent0 & st0 & E0 & Hwf0).
      rewrite E1 in E0. injection E0 as <- <-.
      destruct (Level3Entries.run_entries T M work st1) as [[sent2 st2]|] eqn:E2;
        [|done].
      constructor; [done|]. apply (IH st1 Hwf0). by eexists _, _.
Qed.

Lemma run_entries_completes_iff_witness :
  Forall (λ w : gmap string string * (http_outcome * pyfloat),
            Level3Entries.complete_entry w.1)
    [({[ "name" := "Health"; "url" := "https://a/healthz"; "method" := "GET" ]},
      (Responded 200, FFin 1))]
  ↔ ∃ sent st',
      Level3Entries.run_entries 2 (FFin 2)
        [({[ "name" := "Health"; "url" := "https://a/healthz"; "method" := "GET" ]},
          (Responded 200, FFin 1))] ∅
      = Ok (sent, st').
Proof.
  apply (run_entries_completes_iff 2 (FFin 2)
           [({[ "name" := "Health"; "url" := "https://a/healthz"; "method" := "GET" ]},
             (Responded 200, FFin 1))] ∅).
  intros k v Hk. by rewrite lookup_empty in Hk.
Defined.

(** An entry without ["method"]: the run raises. *)
Example entry_without_method :
  Level3Entries.run_entries 2 (FFin 2)
    [({[ "name" := "Health"; "url" := "https://a/healthz" ]},
      (Responded 200, FFin 1))] ∅
  = Raise (KeyError "method").
Proof. reflexivity. Qed.
